(** * Verification of [scripts/verify_version.py]

    The release check of a2ui-pydantic: the version named by a git tag is
    compared with the versions declared in [pyproject.toml] and in
    [a2ui_pydantic/__init__.py]; [README.md] is searched for it as a soft
    check.

    Modelling choices.
    - A Python [str] is the list of its Unicode code points, each an [N].
      ASCII literals of the source are written with [lit]; the symbols
      outside ASCII are given by their code points.
    - The file system is a map from a path to [None] when [Path.exists()]
      is false, and otherwise to what [read_text] does with that path: the
      decoded text that it returns, or the exception that it raises (the
      path is a directory, may not be read, or does not hold UTF-8).
    - A run of the script produces the sequence of lines it prints, each
      on the stream it is printed to, and ends by [sys.exit] or by an
      exception that nothing catches: the process monad [Proc] below.  The
      traceback that the interpreter writes for such an exception is not
      one of the lines of the script. *)

From Stdlib Require Import List NArith ZArith String Ascii Bool Arith Lia.
Import ListNotations.

Set Implicit Arguments.

(** ** Python text *)

Abbreviation char := N (only parsing).
Abbreviation str := (list N) (only parsing).

(** An ASCII string literal of the source. *)
Definition lit (s : string) : str :=
  map N_of_ascii (list_ascii_of_string s).

Arguments lit s%_string.

(** [a == b] on [str]. *)
Fixpoint str_eqb (a b : str) : bool :=
  match a, b with
  | [], [] => true
  | x :: a', y :: b' => N.eqb x y && str_eqb a' b'
  | _, _ => false
  end.

(** [s.startswith(prefix)]. *)
Fixpoint startswith (s prefix : str) {struct prefix} : bool :=
  match prefix, s with
  | [], _ => true
  | p :: prefix', c :: s' => N.eqb c p && startswith s' prefix'
  | _ :: _, [] => false
  end.

(** [needle in hay]: [needle] starts at some position of [hay], the end of
    [hay] included (the empty string is found in every string). *)
Fixpoint contains (hay needle : str) : bool :=
  startswith hay needle ||
  match hay with
  | [] => false
  | _ :: hay' => contains hay' needle
  end.

(** ** The fragment of [re] that the script uses

    Both patterns are a concatenation of literal characters, single
    character classes, greedy repetitions of a class and one capturing
    group.  The matcher is the backtracking one of [re]: a repetition takes
    as many characters as it can and gives them back one at a time when the
    rest of the pattern fails. *)

Inductive regex : Type :=
| Eps
| Lit (c : char)
| Cls (p : char -> bool)
| Star (p : char -> bool)
| Plus (p : char -> bool)
| Cat (r1 r2 : regex)
| Group (r : regex).

Fixpoint star_k (A : Type) (p : char -> bool) (s : str)
    (k : str -> option A) : option A :=
  match s with
  | c :: s' =>
      if p c then
        match star_k p s' k with
        | Some x => Some x
        | None => k s
        end
      else k s
  | [] => k []
  end.

Fixpoint match_k (A : Type) (r : regex) (s : str) (g : option str)
    (k : str -> option str -> option A) : option A :=
  match r with
  | Eps => k s g
  | Lit c =>
      match s with
      | x :: s' => if N.eqb x c then k s' g else None
      | [] => None
      end
  | Cls p =>
      match s with
      | x :: s' => if p x then k s' g else None
      | [] => None
      end
  | Star p => star_k p s (fun s' => k s' g)
  | Plus p =>
      match s with
      | x :: s' => if p x then star_k p s' (fun s' => k s' g) else None
      | [] => None
      end
  | Cat r1 r2 => match_k r1 s g (fun s' g' => match_k r2 s' g' k)
  | Group r =>
      match_k r s g
        (fun s' _ => k s' (Some (firstn (List.length s - List.length s') s)))
  end.

(** A match object: where the match starts and what group 1 holds. *)
Record Match : Type := mkMatch {
  m_start : nat;
  m_group1 : option str
}.

(** [pattern.match(s)] at the position reached after [pos] characters. *)
Definition re_match_at (r : regex) (pos : nat) (s : str) : option Match :=
  match_k r s None (fun _ g => Some (mkMatch pos g)).

(** [re.search(pattern, s)]: the match at the leftmost position that has
    one, the end of the string included. *)
Fixpoint re_search_from (r : regex) (pos : nat) (s : str) : option Match :=
  match re_match_at r pos s with
  | Some m => Some m
  | None =>
      match s with
      | [] => None
      | _ :: s' => re_search_from r (S pos) s'
      end
  end.

Definition re_search (r : regex) (s : str) : option Match :=
  re_search_from r 0 s.

(** [match.group(1)], for a match in which group 1 took part. *)
Definition group1 (m : Match) : str :=
  match m_group1 m with
  | Some v => v
  | None => []
  end.

(** [\s] of a [str] pattern: the characters for which [str.isspace()]
    holds. *)
Definition is_space (c : char) : bool :=
  ((9 <=? c) && (c <=? 13) || (28 <=? c) && (c <=? 32) ||
   (c =? 133) || (c =? 160) || (c =? 5760) ||
   (8192 <=? c) && (c <=? 8202) || (c =? 8232) || (c =? 8233) ||
   (c =? 8239) || (c =? 8287) || (c =? 12288))%N.

(** The class of the two quote characters, and its complement. *)
Definition is_quote (c : char) : bool := ((c =? 34) || (c =? 39))%N.
Definition not_quote (c : char) : bool := negb (is_quote c).

Definition cat_all (rs : list regex) : regex :=
  fold_right Cat Eps rs.

Definition lits (s : str) : regex := cat_all (map Lit s).

(** The pattern of both extractors: the key, [\s*], [=], [\s*], one quote
    character (single or double), group 1 holding one or more characters
    that are not quote characters, one quote character. *)
Definition assignment_re (key : str) : regex :=
  cat_all [lits key; Star is_space; Lit 61%N; Star is_space;
           Cls is_quote; Group (Plus not_quote); Cls is_quote].

Definition pyproject_re : regex := assignment_re (lit "version").
Definition init_re : regex := assignment_re (lit "__version__").


(** ** Processes: printed lines and [sys.exit] *)

Inductive stream : Type := Stdout | Stderr.

(** One call of [print]: the stream and the text, without the newline that
    [print] adds. *)
Definition event : Type := (stream * str)%type.

(** The exceptions that [read_text] raises on a path that exists. *)
Inductive exn : Type :=
| IsADirectoryError
| PermissionError
| UnicodeDecodeError.

(** A computation returns, ends the process by [sys.exit], or raises an
    exception; the script has no handler, so the exception ends the
    process too. *)
Inductive outcome (A : Type) : Type :=
| Return (a : A)
| Exit (code : Z)
| Raise (e : exn).

Arguments Return {A} a.
Arguments Exit {A} code.
Arguments Raise {A} e.

Definition Proc (A : Type) : Type := (list event * outcome A)%type.

Definition ret (A : Type) (a : A) : Proc A := ([], Return a).

Definition bind (A B : Type) (m : Proc A) (f : A -> Proc B) : Proc B :=
  match m with
  | (out, Return a) => let (out', r) := f a in (out ++ out', r)
  | (out, Exit code) => (out, Exit code)
  | (out, Raise e) => (out, Raise e)
  end.

Declare Scope proc_scope.
Delimit Scope proc_scope with proc.
Notation "x <- m ;; k" := (bind m (fun x => k))
  (at level 61, m at next level, right associativity) : proc_scope.
Notation "m ;; k" := (bind m (fun _ => k))
  (at level 61, right associativity) : proc_scope.
Open Scope proc_scope.

(** [print(s)] *)
Definition print (s : str) : Proc unit := ([(Stdout, s)], Return tt).

(** [print(s, file=sys.stderr)] *)
Definition print_stderr (s : str) : Proc unit := ([(Stderr, s)], Return tt).

(** [sys.exit(code)] *)
Definition sys_exit (A : Type) (code : Z) : Proc A := ([], Exit code).

Arguments sys_exit {A} code%_Z.

(** An exception raised by a call of the script. *)
Definition raise (A : Type) (e : exn) : Proc A := ([], Raise e).

Arguments raise {A} e.

Definition output (A : Type) (p : Proc A) : list event := fst p.

(** What was printed on one stream. *)
Definition printed_on (st : stream) (evs : list event) : list str :=
  map snd (filter (fun e => match fst e, st with
                            | Stdout, Stdout | Stderr, Stderr => true
                            | _, _ => false
                            end) evs).

(** The exit status of the process: the argument of [sys.exit], 0 when
    the script runs to its end, and 1 when an exception ends it. *)
Definition exit_status (A : Type) (p : Proc A) : Z :=
  match snd p with
  | Exit code => code
  | Return _ => 0%Z
  | Raise _ => 1%Z
  end.

(** ** The file system *)

Definition path : Type := string.

(** What [Path(p).read_text(encoding=utf-8)] does with a path that exists:
    it returns the decoded text, or it raises. *)
Inductive read : Type :=
| Text (content : str)
| Unreadable (e : exn).

(** [fs p] is [None] when [Path(p).exists()] is false. *)
Definition FS : Type := path -> option read.

(** [path.read_text(encoding=utf-8)] *)
Definition read_text (r : read) : Proc str :=
  match r with
  | Text content => ret content
  | Unreadable e => raise e
  end.

Definition pyproject_path : path := "pyproject.toml"%string.
Definition init_path : path := "a2ui_pydantic/__init__.py"%string.
Definition readme_path : path := "README.md"%string.

(** ** Symbols outside ASCII used in the messages *)

Definition cross_mark : str := [10060%N].
Definition check_mark : str := [9989%N].
Definition warning_sign : str := [9888%N; 65039%N].
Definition magnifier : str := [128269%N].
Definition page : str := [128196%N].
Definition bulb : str := [128161%N].
Definition newline : str := [10%N].

(** ** The script *)

Definition extract_version_from_tag (tag : str) : str :=
  if startswith tag (lit "v") then skipn 1 tag else tag.

Definition msg_not_found (p : path) : str :=
  cross_mark ++ lit " Error: " ++ lit p ++ lit " not found".

Definition msg_no_pyproject_version : str :=
  cross_mark ++ lit " Error: Could not find version in pyproject.toml".

Definition msg_no_init_version : str :=
  cross_mark ++
  lit " Error: Could not find __version__ in a2ui_pydantic/__init__.py".

Definition get_pyproject_version (fs : FS) : Proc str :=
  match fs pyproject_path with
  | None =>
      print_stderr (msg_not_found pyproject_path) ;;
      sys_exit 1
  | Some file =>
      content <- read_text file ;;
      match re_search pyproject_re content with
      | None =>
          print msg_no_pyproject_version ;;
          sys_exit 1
      | Some m => ret (group1 m)
      end
  end.

Definition get_init_version (fs : FS) : Proc str :=
  match fs init_path with
  | None =>
      print (msg_not_found init_path) ;;
      sys_exit 1
  | Some file =>
      content <- read_text file ;;
      match re_search init_re content with
      | None =>
          print msg_no_init_version ;;
          sys_exit 1
      | Some m => ret (group1 m)
      end
  end.

Definition msg_readme_ok : str :=
  check_mark ++ lit " README.md seems to contain the correct version.".

Definition msg_readme_warning : str :=
  warning_sign ++
  lit "  Warning: Current version not found in README.md. " ++
  lit "Please check if it needs to be updated.".

Definition check_readme_version (fs : FS) (version : str) : Proc unit :=
  match fs readme_path with
  | None => ret tt
  | Some file =>
      content <- read_text file ;;
      if contains content version || contains content (lit "v" ++ version)
      then print msg_readme_ok
      else print msg_readme_warning
  end.

Definition msg_tag_pyproject (tag_version pyproject_version : str) : str :=
  cross_mark ++ lit " Tag version (" ++ tag_version ++
  lit ") does not match " ++
  lit "pyproject.toml version (" ++ pyproject_version ++ lit ")".

Definition msg_tag_init (tag_version init_version : str) : str :=
  cross_mark ++ lit " Tag version (" ++ tag_version ++
  lit ") does not match " ++
  lit "__init__.py __version__ (" ++ init_version ++ lit ")".

Definition msg_pyproject_init (pyproject_version init_version : str) : str :=
  cross_mark ++ lit " pyproject.toml version (" ++ pyproject_version ++
  lit ") does not match " ++
  lit "__init__.py __version__ (" ++ init_version ++ lit ")".

Definition ok_tag_pyproject : str :=
  check_mark ++ lit " Tag version matches pyproject.toml".
Definition ok_tag_init : str :=
  check_mark ++ lit " Tag version matches __init__.py".
Definition ok_pyproject_init : str :=
  check_mark ++ lit " pyproject.toml and __init__.py versions match".

(** One comparison of [main]: the message is appended to [errors] when the
    two versions differ, the confirmation is printed when they are equal. *)
Definition check_pair (a b : str) (failure confirmation : str)
    (errors : list str) : Proc (list str) :=
  if negb (str_eqb a b) then ret (errors ++ [failure])
  else print confirmation ;; ret errors.

(** The block [# Check matches] of [main]: the list [errors] after the
    three comparisons. *)
Definition check_matches (tag_version pyproject_version init_version : str)
    : Proc (list str) :=
  let errors := [] in
  errors <- check_pair tag_version pyproject_version
              (msg_tag_pyproject tag_version pyproject_version)
              ok_tag_pyproject errors ;;
  errors <- check_pair tag_version init_version
              (msg_tag_init tag_version init_version)
              ok_tag_init errors ;;
  check_pair pyproject_version init_version
    (msg_pyproject_init pyproject_version init_version)
    ok_pyproject_init errors.

(** The loop over [errors]: each one is printed after three blanks. *)
Fixpoint print_errors (errors : list str) : Proc unit :=
  match errors with
  | [] => ret tt
  | error :: rest => print (lit "   " ++ error) ;; print_errors rest
  end.

(** The block [# Report results] of [main]. *)
Definition report (errors : list str) : Proc unit :=
  match errors with
  | _ :: _ =>
      print (newline ++ cross_mark ++ lit " Version verification failed:") ;;
      print_errors errors ;;
      print (newline ++ bulb ++ lit " Please update the version in:") ;;
      print (lit "   - pyproject.toml") ;;
      print (lit "   - a2ui_pydantic/__init__.py") ;;
      print (lit "   - README.md (if version is mentioned)") ;;
      sys_exit 1
  | [] =>
      print (newline ++ check_mark ++ lit " All version checks passed!") ;;
      sys_exit 0
  end.

(** The two lines that [main] prints before it reads any file. *)
Definition banner (tag_name tag_version : str) : Proc unit :=
  print (magnifier ++ lit " Verifying version consistency for tag: " ++
         tag_name) ;;
  print (lit "   Extracted version: " ++ tag_version ++ newline).

(** The two lines that show the versions read from the files. *)
Definition show_versions (pyproject_version init_version : str)
    : Proc unit :=
  print (page ++ lit " pyproject.toml version:        " ++
         pyproject_version) ;;
  print (page ++ lit " __init__.py __version__:      " ++ init_version).

(** [main()], with [sys.argv] and the file system as its inputs. *)
Definition main (argv : list str) (fs : FS) : Proc unit :=
  if negb (List.length argv =? 2) then
    print (lit "Usage: python scripts/verify_version.py <tag_name>") ;;
    print (lit "Example: python scripts/verify_version.py v0.1.0") ;;
    sys_exit 1
  else
    let tag_name := nth 1 argv [] in
    let tag_version := extract_version_from_tag tag_name in
    banner tag_name tag_version ;;
    pyproject_version <- get_pyproject_version fs ;;
    init_version <- get_init_version fs ;;
    show_versions pyproject_version init_version ;;
    errors <- check_matches tag_version pyproject_version init_version ;;
    check_readme_version fs tag_version ;;
    report errors.

(** A file system with the three files of the repository, each one
    missing or a text. *)
Definition files (pyproject init readme : option str) : FS :=
  fun p =>
    if String.eqb p pyproject_path then option_map Text pyproject
    else if String.eqb p init_path then option_map Text init
    else if String.eqb p readme_path then option_map Text readme
    else None.

(** The file system [fs] in which the path [q] exists and cannot be read:
    [read_text] raises [e] on it. *)
Definition with_unreadable (fs : FS) (q : path) (e : exn) : FS :=
  fun p => if String.eqb p q then Some (Unreadable e) else fs p.

(** [q ++ v ++ q] for the double quote character. *)
Definition dquoted (v : str) : str := [34%N] ++ v ++ [34%N].

(** ** Words of the specification *)

(** [needle] occurs in [hay] as a substring. *)
Definition substring (needle hay : str) : Prop :=
  exists pre post, hay = pre ++ needle ++ post.

(** The version that the README check looks for is mentioned in [content]:
    bare, or with the prefix v. *)
Definition mentions (content version : str) : Prop :=
  substring version content \/ substring (lit "v" ++ version) content.

(** [content] holds, after the prefix [pre], an assignment of the quoted
    value [v] to [key]: the key, optional whitespace, the equals sign,
    optional whitespace, a quote character, the value (not empty and free
    of quote characters), a quote character. *)
Definition occurrence (key content pre v : str) : Prop :=
  exists ws1 ws2 q1 q2 post,
    content = pre ++ key ++ ws1 ++ [61%N] ++ ws2 ++ [q1] ++ v ++ [q2] ++ post /\
    forallb is_space ws1 = true /\
    forallb is_space ws2 = true /\
    is_quote q1 = true /\
    is_quote q2 = true /\
    v <> [] /\
    forallb not_quote v = true.

(** [v] is the value of the first (leftmost) occurrence in [content]. *)
Definition first_occurrence (key content v : str) : Prop :=
  exists pre,
    occurrence key content pre v /\
    forall pre' v', occurrence key content pre' v' ->
                    List.length pre <= List.length pre'.

(** [content] holds no occurrence at all. *)
Definition no_occurrence (key content : str) : Prop :=
  forall pre v, ~ occurrence key content pre v.

(** The longest prefix of [s] in the class [p], and what follows it. *)
Fixpoint take_while (p : char -> bool) (s : str) : str :=
  match s with
  | c :: s' => if p c then c :: take_while p s' else []
  | [] => []
  end.

Fixpoint drop_while (p : char -> bool) (s : str) : str :=
  match s with
  | c :: s' => if p c then drop_while p s' else s
  | [] => []
  end.

(** The value of the assignment to [key] that starts at the head of [s],
    read from left to right without any backtracking. *)
Definition assignment_at (key s : str) : option str :=
  if startswith s key then
    match drop_while is_space (skipn (List.length key) s) with
    | e :: s2 =>
        if N.eqb e 61 then
          match drop_while is_space s2 with
          | q1 :: s4 =>
              if is_quote q1 then
                match s4 with
                | y :: s5 =>
                    if not_quote y then
                      match drop_while not_quote s5 with
                      | q2 :: _ =>
                          if is_quote q2
                          then Some (y :: take_while not_quote s5)
                          else None
                      | [] => None
                      end
                    else None
                | [] => None
                end
              else None
          | [] => None
          end
        else None
    | [] => None
    end
  else None.

(** The list [errors] that the three comparisons leave. *)
Definition mismatches (tv pv iv : str) : list str :=
  (if str_eqb tv pv then [] else [msg_tag_pyproject tv pv]) ++
  (if str_eqb tv iv then [] else [msg_tag_init tv iv]) ++
  (if str_eqb pv iv then [] else [msg_pyproject_init pv iv]).

(** The run that reports the list [errors] after one comparison was
    confirmed by the line [confirmed]; it stops before the report when the
    README check raises. *)
Definition mismatch_run (fs : FS) (tag tv pv iv confirmed : str)
    (errors : list str) : Proc unit :=
  match snd (check_readme_version fs tv) with
  | Raise e =>
      (output (banner tag tv) ++ output (show_versions pv iv) ++
       [(Stdout, confirmed)] ++
       output (check_readme_version fs tv),
       Raise e)
  | _ =>
      (output (banner tag tv) ++ output (show_versions pv iv) ++
       [(Stdout, confirmed)] ++
       output (check_readme_version fs tv) ++
       output (report errors),
       Exit 1%Z)
  end.

(** Every line of [evs] went to standard output. *)
Definition all_on_stdout (evs : list event) : Prop :=
  Forall (fun e => fst e = Stdout) evs.

(** No line of [evs] is one of the two lines of the README check. *)
Definition no_readme_line (evs : list event) : Prop :=
  Forall (fun e => snd e <> msg_readme_ok /\ snd e <> msg_readme_warning)
         evs.

(** ** Sample inputs *)

(** A manifest and a module file that declare [pv] and [iv]. *)
Definition manifest_text (pv : str) : str :=
  lit "[project]" ++ newline ++ lit "name = 'a2ui-pydantic'" ++ newline ++
  lit "version = " ++ dquoted pv ++ newline.

Definition module_text (iv : str) : str :=
  lit "__version__ = " ++ dquoted iv ++ newline.

Definition repo (pv iv : str) (readme : option str) : FS :=
  files (Some (manifest_text pv)) (Some (module_text iv)) readme.

Definition argv_of (tag : str) : list str :=
  [lit "scripts/verify_version.py"; tag].

(** A repository whose manifest declares no version and whose module file
    is missing. *)
Definition repo_without_module : FS :=
  files (Some (lit "[project]" ++ newline ++ lit "name = 'a2ui-pydantic'"))
        None None.

(** A repository whose manifest is missing and whose module file declares
    no version. *)
Definition repo_without_manifest : FS :=
  files None (Some (lit "# a2ui_pydantic package")) None.

(** A manifest in which a key that ends in version comes first. *)
Definition manifest_with_longer_key : str :=
  lit "my_version = '9.9'" ++ newline ++ lit "version = '1.0'".

(** ** Words of the further properties *)

(** The number of quote characters of a text. *)
Definition count_quotes (s : str) : nat :=
  List.length (filter is_quote s).

(** The text of one assignment up to its value, and with its closing
    quote. *)
Definition assignment_open (key ws1 ws2 : str) (q1 : char) (v : str) : str :=
  key ++ ws1 ++ [61%N] ++ ws2 ++ [q1] ++ v.

Definition assignment_text (key ws1 ws2 : str) (q1 : char) (v : str)
    (q2 : char) : str :=
  assignment_open key ws1 ws2 q1 v ++ [q2].

(** The conditions on the parts of an assignment. *)
Definition well_formed_assignment (ws1 ws2 : str) (q1 : char) (v : str)
    (q2 : char) : Prop :=
  forallb is_space ws1 = true /\
  forallb is_space ws2 = true /\
  is_quote q1 = true /\
  is_quote q2 = true /\
  v <> [] /\
  forallb not_quote v = true.

(** A manifest in which a tool section with the key target-version comes
    before the project section. *)
Definition manifest_with_tool_key : str :=
  lit "[tool.black]" ++ newline ++
  lit "target-version = " ++ dquoted (lit "py311") ++ newline ++
  lit "[project]" ++ newline ++
  lit "version = " ++ dquoted (lit "1.2.0") ++ newline.

(** * Properties *)

(** ** Text *)

Lemma str_eqb_eq (a b : str) : str_eqb a b = true <-> a = b.
Proof.
  revert b; induction a as [|x a IH]; intros [|y b]; simpl;
    try (split; [discriminate | discriminate]); try tauto.
  rewrite andb_true_iff, N.eqb_eq, IH.
  split; [intros [-> ->]; reflexivity | intros H; inversion H; auto].
Qed.

Lemma str_eqb_neq (a b : str) : str_eqb a b = false <-> a <> b.
Proof.
  rewrite <- str_eqb_eq. destruct (str_eqb a b); split; congruence.
Qed.

Lemma str_eqb_refl (a : str) : str_eqb a a = true.
Proof. apply str_eqb_eq; reflexivity. Qed.

Lemma startswith_prefix (s p : str) :
  startswith s p = true <-> exists t, s = p ++ t.
Proof.
  revert s; induction p as [|c p IH]; intros s; simpl.
  - split; [intros _; exists s; reflexivity | reflexivity].
  - destruct s as [|x s].
    + split; [discriminate | intros [t H]; discriminate].
    + rewrite andb_true_iff, N.eqb_eq, IH. split.
      * intros [-> [t ->]]. exists t; reflexivity.
      * intros [t H]. inversion H; subst. split; [reflexivity | eauto].
Qed.

Lemma startswith_app (p t : str) : startswith (p ++ t) p = true.
Proof. apply startswith_prefix; eauto. Qed.

Lemma contains_substring (hay needle : str) :
  contains hay needle = true <-> substring needle hay.
Proof.
  unfold substring. induction hay as [|c hay IH].
  - simpl. rewrite orb_false_r, startswith_prefix. split.
    + intros [t H]. exists [], t. exact H.
    + intros [pre [post H]]. destruct pre; [eauto | discriminate].
  - cbn [contains]. rewrite orb_true_iff, startswith_prefix, IH. split.
    + intros [[t H] | [pre [post H]]].
      * exists [], t. exact H.
      * exists (c :: pre), post. simpl. rewrite H. reflexivity.
    + intros [[|x pre] [post H]].
      * left. exists post. exact H.
      * right. inversion H; subst. eauto.
Qed.

(** ** Processes *)

Lemma exit_status_bind (A B : Type) (m : Proc A) (f : A -> Proc B) :
  exit_status (bind m f) =
  match snd m with
  | Return a => exit_status (f a)
  | Exit code => code
  | Raise _ => 1%Z
  end.
Proof.
  destruct m as [o [a | c | e]]; simpl; [destruct (f a) | |]; reflexivity.
Qed.

Lemma bind_ret_l (A B : Type) (a : A) (f : A -> Proc B) :
  bind ([], Return a) f = f a.
Proof. simpl. destruct (f a); reflexivity. Qed.

(** The extractors, by the state of the file. *)
Lemma get_pyproject_version_missing (fs : FS) :
  fs pyproject_path = None ->
  get_pyproject_version fs =
    ([(Stderr, msg_not_found pyproject_path)], Exit 1%Z).
Proof. unfold get_pyproject_version. intros ->. reflexivity. Qed.

Lemma get_pyproject_version_unreadable (fs : FS) (e : exn) :
  fs pyproject_path = Some (Unreadable e) ->
  get_pyproject_version fs = ([], Raise e).
Proof. unfold get_pyproject_version. intros ->. reflexivity. Qed.

Lemma get_pyproject_version_text (fs : FS) (c : str) :
  fs pyproject_path = Some (Text c) ->
  get_pyproject_version fs =
    match re_search pyproject_re c with
    | None => ([(Stdout, msg_no_pyproject_version)], Exit 1%Z)
    | Some m => ([], Return (group1 m))
    end.
Proof.
  unfold get_pyproject_version. intros ->. cbn [read_text].
  unfold ret. rewrite bind_ret_l.
  destruct (re_search pyproject_re c); reflexivity.
Qed.

Lemma get_init_version_missing (fs : FS) :
  fs init_path = None ->
  get_init_version fs = ([(Stdout, msg_not_found init_path)], Exit 1%Z).
Proof. unfold get_init_version. intros ->. reflexivity. Qed.

Lemma get_init_version_unreadable (fs : FS) (e : exn) :
  fs init_path = Some (Unreadable e) ->
  get_init_version fs = ([], Raise e).
Proof. unfold get_init_version. intros ->. reflexivity. Qed.

Lemma get_init_version_text (fs : FS) (c : str) :
  fs init_path = Some (Text c) ->
  get_init_version fs =
    match re_search init_re c with
    | None => ([(Stdout, msg_no_init_version)], Exit 1%Z)
    | Some m => ([], Return (group1 m))
    end.
Proof.
  unfold get_init_version. intros ->. cbn [read_text].
  unfold ret. rewrite bind_ret_l.
  destruct (re_search init_re c); reflexivity.
Qed.

Lemma check_readme_version_missing (fs : FS) (version : str) :
  fs readme_path = None ->
  check_readme_version fs version = ([], Return tt).
Proof. unfold check_readme_version. intros ->. reflexivity. Qed.

Lemma check_readme_version_unreadable (fs : FS) (version : str) (e : exn) :
  fs readme_path = Some (Unreadable e) ->
  check_readme_version fs version = ([], Raise e).
Proof. unfold check_readme_version. intros ->. reflexivity. Qed.

Lemma check_readme_version_text (fs : FS) (version c : str) :
  fs readme_path = Some (Text c) ->
  check_readme_version fs version =
    if contains c version || contains c (lit "v" ++ version)
    then ([(Stdout, msg_readme_ok)], Return tt)
    else ([(Stdout, msg_readme_warning)], Return tt).
Proof.
  unfold check_readme_version. intros ->. cbn [read_text].
  unfold ret. rewrite bind_ret_l.
  destruct (contains c version || contains c (lit "v" ++ version));
    reflexivity.
Qed.

(** An extractor that returns has printed nothing. *)
Lemma get_pyproject_version_returns (fs : FS) (v : str) :
  snd (get_pyproject_version fs) = Return v ->
  get_pyproject_version fs = ([], Return v).
Proof.
  destruct (fs pyproject_path) as [[c | e] |] eqn:E.
  - rewrite (get_pyproject_version_text _ E).
    destruct (re_search pyproject_re c); [|discriminate].
    simpl. intros H; inversion H; reflexivity.
  - rewrite (get_pyproject_version_unreadable _ E). discriminate.
  - rewrite (get_pyproject_version_missing _ E). discriminate.
Qed.

Lemma get_init_version_returns (fs : FS) (v : str) :
  snd (get_init_version fs) = Return v ->
  get_init_version fs = ([], Return v).
Proof.
  destruct (fs init_path) as [[c | e] |] eqn:E.
  - rewrite (get_init_version_text _ E).
    destruct (re_search init_re c); [|discriminate].
    simpl. intros H; inversion H; reflexivity.
  - rewrite (get_init_version_unreadable _ E). discriminate.
  - rewrite (get_init_version_missing _ E). discriminate.
Qed.

(** The README check prints at most one line, on standard output, and
    returns; or it raises, when README.md exists and cannot be read. *)
Lemma check_readme_version_cases (fs : FS) (version : str) :
  check_readme_version fs version = ([], Return tt) \/
  check_readme_version fs version = ([(Stdout, msg_readme_ok)], Return tt) \/
  check_readme_version fs version =
    ([(Stdout, msg_readme_warning)], Return tt) \/
  (exists e, fs readme_path = Some (Unreadable e) /\
             check_readme_version fs version = ([], Raise e)).
Proof.
  destruct (fs readme_path) as [[c | e] |] eqn:E.
  - rewrite (check_readme_version_text _ _ E).
    destruct (contains c version || contains c (lit "v" ++ version)); auto.
  - right. right. right. exists e.
    rewrite (check_readme_version_unreadable _ _ E). auto.
  - rewrite (check_readme_version_missing _ _ E). auto.
Qed.

(** The README check returns unless README.md exists and cannot be read. *)
Lemma check_readme_version_readable (fs : FS) (version : str) :
  (forall e, fs readme_path <> Some (Unreadable e)) ->
  snd (check_readme_version fs version) = Return tt.
Proof.
  intros Hr.
  destruct (check_readme_version_cases fs version)
    as [H | [H | [H | (e & He & _)]]];
    try (rewrite H; reflexivity).
  exfalso. exact (Hr e He).
Qed.

Lemma print_errors_run (errors : list str) :
  print_errors errors =
  (map (fun error => (Stdout, lit "   " ++ error)) errors, Return tt).
Proof.
  induction errors as [|e errors IH]; [reflexivity|].
  cbn [print_errors map]. rewrite IH. reflexivity.
Qed.

Lemma exit_status_report (errors : list str) :
  exit_status (report errors) =
  match errors with [] => 0%Z | _ :: _ => 1%Z end.
Proof.
  destruct errors as [|e errors]; [reflexivity|].
  unfold report. repeat rewrite exit_status_bind.
  assert (H : forall l, snd (print_errors l) = Return tt).
  { induction l as [|x l IH]; [reflexivity|].
    simpl. destruct (print_errors l); simpl in *. rewrite IH. reflexivity. }
  simpl snd at 1. rewrite H. reflexivity.
Qed.

Lemma check_matches_errors (tv pv iv : str) :
  snd (check_matches tv pv iv) = Return (mismatches tv pv iv).
Proof.
  unfold check_matches, check_pair, mismatches.
  destruct (str_eqb tv pv), (str_eqb tv iv), (str_eqb pv iv); reflexivity.
Qed.

(** [main] with one argument, once both versions are extracted. *)
Lemma main_extracted (argv : list str) (fs : FS) (pv iv : str) :
  List.length argv = 2 ->
  snd (get_pyproject_version fs) = Return pv ->
  snd (get_init_version fs) = Return iv ->
  let tv := extract_version_from_tag (nth 1 argv []) in
  main argv fs =
  (banner (nth 1 argv []) tv ;;
   show_versions pv iv ;;
   errors <- check_matches tv pv iv ;;
   check_readme_version fs tv ;;
   report errors).
Proof.
  intros Hlen Hp Hi tv. unfold main. rewrite Hlen. cbn [Nat.eqb negb].
  rewrite (get_pyproject_version_returns _ Hp).
  rewrite (get_init_version_returns _ Hi).
  rewrite !bind_ret_l. reflexivity.
Qed.

Lemma exit_status_main_extracted (argv : list str) (fs : FS) (pv iv : str) :
  List.length argv = 2 ->
  snd (get_pyproject_version fs) = Return pv ->
  snd (get_init_version fs) = Return iv ->
  exit_status (main argv fs) =
  match snd (check_readme_version fs
               (extract_version_from_tag (nth 1 argv []))) with
  | Raise _ => 1%Z
  | _ =>
      match mismatches (extract_version_from_tag (nth 1 argv [])) pv iv with
      | [] => 0%Z
      | _ :: _ => 1%Z
      end
  end.
Proof.
  intros Hlen Hp Hi. rewrite (main_extracted _ _ Hlen Hp Hi).
  repeat rewrite exit_status_bind.
  cbn [banner show_versions print bind snd].
  rewrite check_matches_errors.
  destruct (check_readme_version_cases fs
              (extract_version_from_tag (nth 1 argv [])))
    as [H | [H | [H | (e & _ & H)]]];
    rewrite H, exit_status_bind; cbn [snd];
    try apply exit_status_report; reflexivity.
Qed.

(** The extractors read one file each. *)
Lemma get_pyproject_version_ext (fs fs' : FS) :
  fs' pyproject_path = fs pyproject_path ->
  get_pyproject_version fs' = get_pyproject_version fs.
Proof. unfold get_pyproject_version. intros ->. reflexivity. Qed.

Lemma get_init_version_ext (fs fs' : FS) :
  fs' init_path = fs init_path ->
  get_init_version fs' = get_init_version fs.
Proof. unfold get_init_version. intros ->. reflexivity. Qed.

Lemma mismatches_nil (tv pv iv : str) :
  mismatches tv pv iv = [] <-> tv = pv /\ tv = iv /\ pv = iv.
Proof.
  unfold mismatches. rewrite <- !str_eqb_eq.
  destruct (str_eqb tv pv), (str_eqb tv iv), (str_eqb pv iv); simpl;
    split; try discriminate; try tauto; intros (? & ? & ?); discriminate.
Qed.

(** A run in which an extractor exits: the banner, then the output and the
    status of the extractor. *)
Lemma main_pyproject_exit (argv : list str) (fs : FS) (o : list event)
    (code : Z) :
  List.length argv = 2 ->
  get_pyproject_version fs = (o, Exit code) ->
  main argv fs =
  (output (banner (nth 1 argv [])
                  (extract_version_from_tag (nth 1 argv []))) ++ o,
   Exit code).
Proof.
  intros Hlen H. unfold main. rewrite Hlen, H. reflexivity.
Qed.

Lemma main_init_exit (argv : list str) (fs : FS) (pv : str)
    (o : list event) (code : Z) :
  List.length argv = 2 ->
  snd (get_pyproject_version fs) = Return pv ->
  get_init_version fs = (o, Exit code) ->
  main argv fs =
  (output (banner (nth 1 argv [])
                  (extract_version_from_tag (nth 1 argv []))) ++ o,
   Exit code).
Proof.
  intros Hlen Hp H. unfold main.
  rewrite Hlen, (get_pyproject_version_returns _ Hp), H. reflexivity.
Qed.

(** A run in which an extractor raises: the banner, then the exception. *)
Lemma main_pyproject_raise (argv : list str) (fs : FS) (e : exn) :
  List.length argv = 2 ->
  get_pyproject_version fs = ([], Raise e) ->
  main argv fs =
  (output (banner (nth 1 argv [])
                  (extract_version_from_tag (nth 1 argv []))),
   Raise e).
Proof.
  intros Hlen H. unfold main. rewrite Hlen, H. reflexivity.
Qed.

Lemma main_init_raise (argv : list str) (fs : FS) (pv : str) (e : exn) :
  List.length argv = 2 ->
  snd (get_pyproject_version fs) = Return pv ->
  get_init_version fs = ([], Raise e) ->
  main argv fs =
  (output (banner (nth 1 argv [])
                  (extract_version_from_tag (nth 1 argv []))),
   Raise e).
Proof.
  intros Hlen Hp H. unfold main.
  rewrite Hlen, (get_pyproject_version_returns _ Hp), H. reflexivity.
Qed.

Lemma get_pyproject_version_exit_code (fs : FS) (code : Z) :
  snd (get_pyproject_version fs) = Exit code -> code = 1%Z.
Proof.
  destruct (fs pyproject_path) as [[c | e] |] eqn:E.
  - rewrite (get_pyproject_version_text _ E).
    destruct (re_search pyproject_re c); simpl; congruence.
  - rewrite (get_pyproject_version_unreadable _ E). discriminate.
  - rewrite (get_pyproject_version_missing _ E). simpl. congruence.
Qed.

Lemma get_init_version_exit_code (fs : FS) (code : Z) :
  snd (get_init_version fs) = Exit code -> code = 1%Z.
Proof.
  destruct (fs init_path) as [[c | e] |] eqn:E.
  - rewrite (get_init_version_text _ E).
    destruct (re_search init_re c); simpl; congruence.
  - rewrite (get_init_version_unreadable _ E). discriminate.
  - rewrite (get_init_version_missing _ E). simpl. congruence.
Qed.

(** An extractor that raises has printed nothing. *)
Lemma get_pyproject_version_raises (fs : FS) (e : exn) :
  snd (get_pyproject_version fs) = Raise e ->
  fs pyproject_path = Some (Unreadable e) /\
  get_pyproject_version fs = ([], Raise e).
Proof.
  destruct (fs pyproject_path) as [[c | e'] |] eqn:E.
  - rewrite (get_pyproject_version_text _ E).
    destruct (re_search pyproject_re c); discriminate.
  - rewrite (get_pyproject_version_unreadable _ E). cbn [snd].
    intros H. inversion H. auto.
  - rewrite (get_pyproject_version_missing _ E). discriminate.
Qed.

Lemma get_init_version_raises (fs : FS) (e : exn) :
  snd (get_init_version fs) = Raise e ->
  fs init_path = Some (Unreadable e) /\
  get_init_version fs = ([], Raise e).
Proof.
  destruct (fs init_path) as [[c | e'] |] eqn:E.
  - rewrite (get_init_version_text _ E).
    destruct (re_search init_re c); discriminate.
  - rewrite (get_init_version_unreadable _ E). cbn [snd].
    intros H. inversion H. auto.
  - rewrite (get_init_version_missing _ E). discriminate.
Qed.

(** ** The tag *)

(** C3: for a tag made of the letter v and a remainder X the extracted
    version is X, the empty remainder included; a tag that does not begin
    with v is returned unchanged; one v at most is removed, so the tag
    vv1.0 gives v1.0. *)
Theorem extract_version_from_tag_strips_one_v :
  (forall X : str, extract_version_from_tag (lit "v" ++ X) = X) /\
  (forall tag : str,
      (forall X : str, tag <> lit "v" ++ X) ->
      extract_version_from_tag tag = tag) /\
  extract_version_from_tag (lit "v") = [] /\
  extract_version_from_tag (lit "vv1.0") = lit "v1.0".
Proof.
  repeat split.
  - intros tag Hno. unfold extract_version_from_tag.
    destruct (startswith tag (lit "v")) eqn:E; [|reflexivity].
    apply startswith_prefix in E. destruct E as [t E].
    exfalso. exact (Hno t E).
Qed.

Lemma extract_version_from_tag_strips_one_v_witness :
  extract_version_from_tag (lit "1.2.0") = lit "1.2.0".
Proof.
  apply (proj1 (proj2 extract_version_from_tag_strips_one_v)).
  intros X H. vm_compute in H. discriminate H.
Defined.

(** C9: the strip is case sensitive.  A tag that begins with the capital
    letter V is returned unchanged, so it differs from the version that
    follows the V, and a run whose manifest declares that version ends with
    status 1. *)
Theorem extract_version_from_tag_keeps_capital_v (X : str) :
  extract_version_from_tag (lit "V" ++ X) = lit "V" ++ X /\
  extract_version_from_tag (lit "V" ++ X) <> X /\
  str_eqb (extract_version_from_tag (lit "V" ++ X)) X = false /\
  (forall (prog : str) (fs : FS),
      snd (get_pyproject_version fs) = Return X ->
      exit_status (main [prog; lit "V" ++ X] fs) = 1%Z).
Proof.
  assert (Hneq : lit "V" ++ X <> X).
  { intros H. apply (f_equal (@List.length char)) in H.
    simpl in H. lia. }
  repeat split.
  - exact Hneq.
  - apply str_eqb_neq. exact Hneq.
  - intros prog fs Hp.
    destruct (snd (get_init_version fs)) as [iv | code | e] eqn:Hi.
    + rewrite (@exit_status_main_extracted [prog; lit "V" ++ X] fs X iv
                 eq_refl Hp Hi).
      change (extract_version_from_tag (nth 1 [prog; lit "V" ++ X] []))
        with (lit "V" ++ X).
      unfold mismatches.
      apply str_eqb_neq in Hneq. rewrite Hneq.
      destruct (snd (check_readme_version fs (lit "V" ++ X))); reflexivity.
    + destruct (get_init_version fs) as [o r] eqn:E. simpl in Hi. subst r.
      rewrite (@main_init_exit [prog; lit "V" ++ X] fs X o code
                 eq_refl Hp E).
      apply (f_equal snd) in E. apply get_init_version_exit_code in E.
      exact E.
    + apply get_init_version_raises in Hi. destruct Hi as [_ Hi].
      rewrite (@main_init_raise [prog; lit "V" ++ X] fs X e eq_refl Hp Hi).
      reflexivity.
Qed.

Lemma extract_version_from_tag_keeps_capital_v_witness :
  exit_status
    (main [lit "verify_version.py"; lit "V" ++ lit "1.2.0"]
          (repo (lit "1.2.0") (lit "1.2.0") None)) = 1%Z.
Proof.
  apply (proj2 (proj2 (proj2
           (extract_version_from_tag_keeps_capital_v (lit "1.2.0"))))).
  vm_compute. reflexivity.
Defined.

(** ** The run of [main] *)

Lemma bind_returns (A B : Type) (m : Proc A) (a : A) (f : A -> Proc B) :
  snd m = Return a ->
  bind m f = (output m ++ output (f a), snd (f a)).
Proof.
  destruct m as [o r]. simpl. intros ->. destruct (f a); reflexivity.
Qed.

(** The whole run once both versions are extracted and the README check
    returns: the banner, the two versions, the confirmations, the README
    check, the report. *)
Lemma main_extracted_run (argv : list str) (fs : FS) (pv iv : str) :
  List.length argv = 2 ->
  snd (get_pyproject_version fs) = Return pv ->
  snd (get_init_version fs) = Return iv ->
  let tv := extract_version_from_tag (nth 1 argv []) in
  snd (check_readme_version fs tv) = Return tt ->
  main argv fs =
  ((output (banner (nth 1 argv []) tv) ++ output (show_versions pv iv) ++
    output (check_matches tv pv iv)) ++
   output (check_readme_version fs tv) ++
   output (report (mismatches tv pv iv)),
   snd (report (mismatches tv pv iv))).
Proof.
  intros Hlen Hp Hi tv Hr. rewrite (main_extracted _ _ Hlen Hp Hi). fold tv.
  rewrite (@bind_returns _ _ (banner (nth 1 argv []) tv) tt) by reflexivity.
  rewrite (@bind_returns _ _ (show_versions pv iv) tt) by reflexivity.
  rewrite (@bind_returns _ _ _ _ _ (check_matches_errors tv pv iv)).
  rewrite (@bind_returns _ _ _ _ _ Hr).
  unfold output at 1 2 3. cbn [fst snd]. rewrite <- !app_assoc. reflexivity.
Qed.

(** The whole run once both versions are extracted and the README check
    raises: the banner, the two versions, the confirmations, and the
    exception in place of the report. *)
Lemma main_extracted_raise (argv : list str) (fs : FS) (pv iv : str)
    (e : exn) :
  List.length argv = 2 ->
  snd (get_pyproject_version fs) = Return pv ->
  snd (get_init_version fs) = Return iv ->
  let tv := extract_version_from_tag (nth 1 argv []) in
  check_readme_version fs tv = ([], Raise e) ->
  main argv fs =
  (output (banner (nth 1 argv []) tv) ++ output (show_versions pv iv) ++
   output (check_matches tv pv iv),
   Raise e).
Proof.
  intros Hlen Hp Hi tv Hr. rewrite (main_extracted _ _ Hlen Hp Hi). fold tv.
  rewrite (@bind_returns _ _ (banner (nth 1 argv []) tv) tt) by reflexivity.
  rewrite (@bind_returns _ _ (show_versions pv iv) tt) by reflexivity.
  rewrite (@bind_returns _ _ _ _ _ (check_matches_errors tv pv iv)).
  rewrite Hr. unfold output at 1 2 3. cbn [bind fst snd].
  rewrite ?app_nil_r, <- ?app_assoc. reflexivity.
Qed.

(** The extractors, by cases on the file. *)
Lemma get_pyproject_version_cases (fs : FS) :
  (fs pyproject_path = None /\
   get_pyproject_version fs =
     ([(Stderr, msg_not_found pyproject_path)], Exit 1)) \/
  (exists c, fs pyproject_path = Some (Text c) /\
             re_search pyproject_re c = None /\
             get_pyproject_version fs =
               ([(Stdout, msg_no_pyproject_version)], Exit 1)) \/
  (exists c m, fs pyproject_path = Some (Text c) /\
               re_search pyproject_re c = Some m /\
               get_pyproject_version fs = ([], Return (group1 m))) \/
  (exists e, fs pyproject_path = Some (Unreadable e) /\
             get_pyproject_version fs = ([], Raise e)).
Proof.
  destruct (fs pyproject_path) as [[c | e] |] eqn:E.
  - right. rewrite (get_pyproject_version_text _ E).
    destruct (re_search pyproject_re c) as [m|] eqn:Es.
    + right. left. exists c, m. auto.
    + left. exists c. auto.
  - right. right. right. exists e.
    rewrite (get_pyproject_version_unreadable _ E). auto.
  - left. rewrite (get_pyproject_version_missing _ E). auto.
Qed.

Lemma get_init_version_cases (fs : FS) :
  (fs init_path = None /\
   get_init_version fs = ([(Stdout, msg_not_found init_path)], Exit 1)) \/
  (exists c, fs init_path = Some (Text c) /\
             re_search init_re c = None /\
             get_init_version fs =
               ([(Stdout, msg_no_init_version)], Exit 1)) \/
  (exists c m, fs init_path = Some (Text c) /\
               re_search init_re c = Some m /\
               get_init_version fs = ([], Return (group1 m))) \/
  (exists e, fs init_path = Some (Unreadable e) /\
             get_init_version fs = ([], Raise e)).
Proof.
  destruct (fs init_path) as [[c | e] |] eqn:E.
  - right. rewrite (get_init_version_text _ E).
    destruct (re_search init_re c) as [m|] eqn:Es.
    + right. left. exists c, m. auto.
    + left. exists c. auto.
  - right. right. right. exists e.
    rewrite (get_init_version_unreadable _ E). auto.
  - left. rewrite (get_init_version_missing _ E). auto.
Qed.

(** The run once both versions are extracted, by the outcome of the
    README check. *)
Lemma main_extracted_cases (argv : list str) (fs : FS) (pv iv : str) :
  List.length argv = 2 ->
  snd (get_pyproject_version fs) = Return pv ->
  snd (get_init_version fs) = Return iv ->
  let tv := extract_version_from_tag (nth 1 argv []) in
  let lead :=
    output (banner (nth 1 argv []) tv) ++ output (show_versions pv iv) ++
    output (check_matches tv pv iv) in
  (snd (check_readme_version fs tv) = Return tt /\
   main argv fs =
     (lead ++ output (check_readme_version fs tv) ++
      output (report (mismatches tv pv iv)),
      snd (report (mismatches tv pv iv)))) \/
  (exists e,
      fs readme_path = Some (Unreadable e) /\
      check_readme_version fs tv = ([], Raise e) /\
      main argv fs = (lead, Raise e)).
Proof.
  intros Hlen Hp Hi tv lead.
  destruct (check_readme_version_cases fs tv)
    as [H | [H | [H | (e & He & H)]]].
  1-3: left;
       assert (Hr : snd (check_readme_version fs tv) = Return tt)
         by (rewrite H; reflexivity);
       split; [exact Hr | exact (main_extracted_run _ _ Hlen Hp Hi Hr)].
  right. exists e. repeat split; auto.
  exact (main_extracted_raise _ _ Hlen Hp Hi H).
Qed.

(** When README.md is missing or can be read, and both versions are
    extracted, the exit status is 0 exactly when the three versions
    agree. *)
Lemma exit_status_with_readable_readme (argv : list str) (fs : FS)
    (pv iv : str) :
  List.length argv = 2 ->
  snd (get_pyproject_version fs) = Return pv ->
  snd (get_init_version fs) = Return iv ->
  (forall e, fs readme_path <> Some (Unreadable e)) ->
  let tv := extract_version_from_tag (nth 1 argv []) in
  exit_status (main argv fs) =
    (if str_eqb tv pv && str_eqb tv iv && str_eqb pv iv then 0 else 1)%Z /\
  (exit_status (main argv fs) = 0%Z <-> tv = pv /\ tv = iv /\ pv = iv).
Proof.
  intros Hlen Hp Hi Hr tv.
  pose proof (exit_status_main_extracted _ _ Hlen Hp Hi) as E. fold tv in E.
  rewrite (check_readme_version_readable _ tv Hr) in E.
  split.
  - rewrite E. unfold mismatches.
    destruct (str_eqb tv pv), (str_eqb tv iv), (str_eqb pv iv); reflexivity.
  - rewrite E, <- mismatches_nil.
    destruct (mismatches tv pv iv); split; congruence.
Qed.

(** When README.md exists and cannot be read, and both versions are
    extracted, the run ends by the exception of [read_text], with status 1
    and without report, whatever the versions are. *)
Lemma unreadable_readme_ends_run (argv : list str) (fs : FS) (pv iv : str)
    (e : exn) :
  List.length argv = 2 ->
  snd (get_pyproject_version fs) = Return pv ->
  snd (get_init_version fs) = Return iv ->
  fs readme_path = Some (Unreadable e) ->
  snd (main argv fs) = Raise e /\ exit_status (main argv fs) = 1%Z.
Proof.
  intros Hlen Hp Hi He.
  pose proof (check_readme_version_unreadable _
                (extract_version_from_tag (nth 1 argv [])) He) as H.
  rewrite (main_extracted_raise _ _ Hlen Hp Hi H). auto.
Qed.

(** C1: the program breaks the claim at a README.md that exists and
    cannot be read.  With the tag v1.2.0, a manifest and a module file
    that both declare 1.2.0, and a README.md that does not hold UTF-8,
    both extractions succeed and the three comparisons are confirmed;
    then [read_text] raises in the README check, nothing catches the
    exception, and the run ends with status 1 and without report.  The
    same run without README.md ends with status 0: the README check
    changed the exit status. *)
Theorem undecodable_readme_changes_exit_status :
  let argv := argv_of (lit "v1.2.0") in
  let fs := repo (lit "1.2.0") (lit "1.2.0") None in
  let fs' := with_unreadable fs readme_path UnicodeDecodeError in
  snd (get_pyproject_version fs') = Return (lit "1.2.0") /\
  snd (get_init_version fs') = Return (lit "1.2.0") /\
  extract_version_from_tag (nth 1 argv []) = lit "1.2.0" /\
  main argv fs' =
    (output (banner (lit "v1.2.0") (lit "1.2.0")) ++
     output (show_versions (lit "1.2.0") (lit "1.2.0")) ++
     [(Stdout, ok_tag_pyproject); (Stdout, ok_tag_init);
      (Stdout, ok_pyproject_init)],
     Raise UnicodeDecodeError) /\
  exit_status (main argv fs') = 1%Z /\
  exit_status (main argv fs) = 0%Z.
Proof.
  intros argv fs fs'. repeat split; vm_compute; reflexivity.
Qed.

(** C2: when exactly one of the three versions differs from the other
    two, the run ends with status 1, the list of mismatches holds the two
    comparisons in which that version takes part, in the order of the
    checks, and the third comparison is confirmed instead of reported. *)
Theorem one_version_differs (argv : list str) (fs : FS) (pv iv : str) :
  List.length argv = 2 ->
  snd (get_pyproject_version fs) = Return pv ->
  snd (get_init_version fs) = Return iv ->
  let tag := nth 1 argv [] in
  let tv := extract_version_from_tag tag in
  (pv = iv -> tv <> pv ->
   snd (check_matches tv pv iv) =
     Return [msg_tag_pyproject tv pv; msg_tag_init tv iv] /\
   main argv fs =
     mismatch_run fs tag tv pv iv ok_pyproject_init
       [msg_tag_pyproject tv pv; msg_tag_init tv iv] /\
   exit_status (main argv fs) = 1%Z) /\
  (tv = iv -> pv <> tv ->
   snd (check_matches tv pv iv) =
     Return [msg_tag_pyproject tv pv; msg_pyproject_init pv iv] /\
   main argv fs =
     mismatch_run fs tag tv pv iv ok_tag_init
       [msg_tag_pyproject tv pv; msg_pyproject_init pv iv] /\
   exit_status (main argv fs) = 1%Z) /\
  (tv = pv -> iv <> tv ->
   snd (check_matches tv pv iv) =
     Return [msg_tag_init tv iv; msg_pyproject_init pv iv] /\
   main argv fs =
     mismatch_run fs tag tv pv iv ok_tag_pyproject
       [msg_tag_init tv iv; msg_pyproject_init pv iv] /\
   exit_status (main argv fs) = 1%Z).
Proof.
  intros Hlen Hp Hi tag tv.
  pose proof (main_extracted_cases _ _ Hlen Hp Hi) as E.
  fold tag tv in E. cbv zeta in E.
  assert (Hcases :
    forall b1 b2 b3 : bool,
      str_eqb tv pv = b1 -> str_eqb tv iv = b2 -> str_eqb pv iv = b3 ->
      (b1 = false /\ b2 = false /\ b3 = true) \/
      (b1 = false /\ b2 = true /\ b3 = false) \/
      (b1 = true /\ b2 = false /\ b3 = false) ->
      forall confirmed errors,
        output (check_matches tv pv iv) = [(Stdout, confirmed)] ->
        mismatches tv pv iv = errors ->
        main argv fs = mismatch_run fs tag tv pv iv confirmed errors /\
        exit_status (main argv fs) = 1%Z).
  { intros b1 b2 b3 E1 E2 E3 Hb confirmed errors Ho Hm.
    assert (Hne : exists e l, errors = e :: l).
    { rewrite <- Hm. unfold mismatches. rewrite E1, E2, E3.
      destruct Hb as [(-> & -> & ->) | [(-> & -> & ->) | (-> & -> & ->)]];
        cbn; eauto. }
    destruct Hne as (e0 & l & Hne).
    assert (Hs : snd (report errors) = Exit 1%Z).
    { rewrite Hne. unfold report. rewrite print_errors_run. reflexivity. }
    unfold mismatch_run, exit_status.
    destruct E as [[Hr E] | (e & _ & Hr & E)]; rewrite E.
    - rewrite Hr, Ho, Hm, Hs. cbn [snd]. rewrite <- !app_assoc. auto.
    - rewrite Hr, Ho. cbn [snd output fst]. rewrite app_nil_r. auto. }
  unfold mismatches, check_matches, check_pair in Hcases.
  split; [|split].
  - intros <- Hne. apply str_eqb_neq in Hne.
    pose proof (str_eqb_refl pv) as Hrefl.
    specialize (Hcases _ _ _ Hne Hne Hrefl
                  ltac:(auto) ok_pyproject_init
                  [msg_tag_pyproject tv pv; msg_tag_init tv pv]).
    rewrite Hne, Hrefl in Hcases.
    split; [|apply Hcases; reflexivity].
    unfold check_matches, check_pair. rewrite Hne, Hrefl. reflexivity.
  - intros Hti Hne.
    assert (H1 : str_eqb tv pv = false)
      by (apply str_eqb_neq; congruence).
    assert (H2 : str_eqb pv iv = false)
      by (apply str_eqb_neq; congruence).
    apply str_eqb_eq in Hti.
    specialize (Hcases _ _ _ H1 Hti H2
                  ltac:(auto) ok_tag_init
                  [msg_tag_pyproject tv pv; msg_pyproject_init pv iv]).
    rewrite H1, H2, Hti in Hcases.
    split; [|apply Hcases; reflexivity].
    unfold check_matches, check_pair. rewrite H1, H2, Hti. reflexivity.
  - intros Htp Hne.
    assert (H1 : str_eqb tv iv = false)
      by (apply str_eqb_neq; congruence).
    assert (H2 : str_eqb pv iv = false)
      by (apply str_eqb_neq; congruence).
    apply str_eqb_eq in Htp.
    specialize (Hcases _ _ _ Htp H1 H2
                  ltac:(auto) ok_tag_pyproject
                  [msg_tag_init tv iv; msg_pyproject_init pv iv]).
    rewrite H1, H2, Htp in Hcases.
    split; [|apply Hcases; reflexivity].
    unfold check_matches, check_pair. rewrite H1, H2, Htp. reflexivity.
Qed.

Lemma one_version_differs_witness :
  let fs := repo (lit "1.2.0") (lit "1.3.0") None in
  main (argv_of (lit "v1.2.0")) fs =
  mismatch_run fs (lit "v1.2.0") (lit "1.2.0") (lit "1.2.0") (lit "1.3.0")
    ok_tag_pyproject
    [msg_tag_init (lit "1.2.0") (lit "1.3.0");
     msg_pyproject_init (lit "1.2.0") (lit "1.3.0")].
Proof.
  intros fs.
  refine (proj1 (proj2 (proj2 (proj2
            (@one_version_differs (argv_of (lit "v1.2.0")) fs
               (lit "1.2.0") (lit "1.3.0") eq_refl _ _)) eq_refl _))).
  - vm_compute. reflexivity.
  - vm_compute. reflexivity.
  - vm_compute. discriminate.
Defined.

(** ** What is printed, and where *)

Lemma output_report (errors : list str) :
  output (report errors) =
  match errors with
  | [] =>
      [(Stdout, newline ++ check_mark ++ lit " All version checks passed!")]
  | _ :: _ =>
      [(Stdout, newline ++ cross_mark ++ lit " Version verification failed:")]
      ++ map (fun error => (Stdout, lit "   " ++ error)) errors ++
      [(Stdout, newline ++ bulb ++ lit " Please update the version in:");
       (Stdout, lit "   - pyproject.toml");
       (Stdout, lit "   - a2ui_pydantic/__init__.py");
       (Stdout, lit "   - README.md (if version is mentioned)")]
  end.
Proof.
  destruct errors as [|e errors]; [reflexivity|].
  unfold report. rewrite print_errors_run. reflexivity.
Qed.

Ltac texts_differ :=
  let H := fresh "H" in
  intro H; cbv in H; discriminate H.

Ltac each_line tac :=
  repeat (apply Forall_cons; [cbn [fst snd]; tac |]); try apply Forall_nil.

Lemma all_on_stdout_banner (tag tv : str) :
  all_on_stdout (output (banner tag tv)).
Proof. unfold all_on_stdout. cbn. each_line reflexivity. Qed.

Lemma all_on_stdout_show_versions (pv iv : str) :
  all_on_stdout (output (show_versions pv iv)).
Proof. unfold all_on_stdout. cbn. each_line reflexivity. Qed.

Lemma all_on_stdout_check_matches (tv pv iv : str) :
  all_on_stdout (output (check_matches tv pv iv)).
Proof.
  unfold all_on_stdout, check_matches, check_pair.
  destruct (str_eqb tv pv), (str_eqb tv iv), (str_eqb pv iv); cbn;
    each_line reflexivity.
Qed.

Lemma all_on_stdout_check_readme_version (fs : FS) (version : str) :
  all_on_stdout (output (check_readme_version fs version)).
Proof.
  unfold all_on_stdout.
  destruct (check_readme_version_cases fs version)
    as [H | [H | [H | (e & _ & H)]]];
    rewrite H; cbn; each_line reflexivity.
Qed.

Lemma all_on_stdout_report (errors : list str) :
  all_on_stdout (output (report errors)).
Proof.
  unfold all_on_stdout. rewrite output_report.
  destruct errors as [|e errors]; [each_line reflexivity|].
  apply Forall_app. split; [each_line reflexivity|].
  apply Forall_app. split; [|each_line reflexivity].
  apply Forall_forall. intros x Hx. apply in_map_iff in Hx.
  destruct Hx as [y [<- _]]. reflexivity.
Qed.

Lemma no_readme_line_banner (tag tv : str) :
  no_readme_line (output (banner tag tv)).
Proof.
  unfold no_readme_line. cbn [banner print bind output fst snd app].
  each_line ltac:(split; texts_differ).
Qed.

Lemma no_readme_line_show_versions (pv iv : str) :
  no_readme_line (output (show_versions pv iv)).
Proof.
  unfold no_readme_line. cbn [show_versions print bind output fst snd app].
  each_line ltac:(split; texts_differ).
Qed.

Lemma no_readme_line_check_matches (tv pv iv : str) :
  no_readme_line (output (check_matches tv pv iv)).
Proof.
  unfold no_readme_line, check_matches, check_pair.
  destruct (str_eqb tv pv), (str_eqb tv iv), (str_eqb pv iv);
    cbn [negb print bind ret output fst snd app];
    each_line ltac:(split; texts_differ).
Qed.

Lemma no_readme_line_report (errors : list str) :
  no_readme_line (output (report errors)).
Proof.
  unfold no_readme_line. rewrite output_report.
  destruct errors as [|e errors]; [each_line ltac:(split; texts_differ)|].
  apply Forall_app. split; [each_line ltac:(split; texts_differ)|].
  apply Forall_app. split; [|each_line ltac:(split; texts_differ)].
  apply Forall_forall. intros x Hx. apply in_map_iff in Hx.
  destruct Hx as [y [<- _]]. cbn [snd]. split; texts_differ.
Qed.

Lemma contains_mentions (content version : str) :
  contains content version || contains content (lit "v" ++ version) = true
  <-> mentions content version.
Proof.
  unfold mentions. rewrite orb_true_iff, !contains_substring. tauto.
Qed.

(** ** The README check *)

(** C6: the program breaks the claim at a README.md that exists and
    cannot be read.  The check neither prints its success line nor its
    warning: [read_text] raises, nothing catches the exception, and the
    run, which ends with status 0 when README.md is missing and when it is
    a text that does not mention the version, ends with status 1 and
    without report. *)
Theorem undecodable_readme_is_not_advisory :
  let argv := argv_of (lit "v1.2.0") in
  let fs := repo (lit "1.2.0") (lit "1.2.0") None in
  let fs_text := repo (lit "1.2.0") (lit "1.2.0") (Some (lit "Usage")) in
  let fs' := with_unreadable fs readme_path UnicodeDecodeError in
  fs' readme_path = Some (Unreadable UnicodeDecodeError) /\
  check_readme_version fs' (lit "1.2.0") = ([], Raise UnicodeDecodeError) /\
  snd (main argv fs') = Raise UnicodeDecodeError /\
  exit_status (main argv fs') = 1%Z /\
  exit_status (main argv fs) = 0%Z /\
  exit_status (main argv fs_text) = 0%Z /\
  check_readme_version fs_text (lit "1.2.0") =
    ([(Stdout, msg_readme_warning)], Return tt).
Proof.
  intros argv fs fs_text fs'. repeat split; vm_compute; reflexivity.
Qed.

(** C10: the README check of a run is made with the version taken from
    the tag.  Whatever the manifest and the module declare, the success
    line is printed exactly when README.md exists and mentions the tag
    version, and the warning line exactly when it exists and does not. *)
Theorem readme_checked_against_tag (argv : list str) (fs : FS)
    (pv iv : str) :
  List.length argv = 2 ->
  snd (get_pyproject_version fs) = Return pv ->
  snd (get_init_version fs) = Return iv ->
  let tv := extract_version_from_tag (nth 1 argv []) in
  (exists before after : list event,
      output (main argv fs) =
        before ++ output (check_readme_version fs tv) ++ after /\
      no_readme_line before /\ no_readme_line after) /\
  (In (Stdout, msg_readme_ok) (output (main argv fs)) <->
   exists content, fs readme_path = Some (Text content) /\ mentions content tv) /\
  (In (Stdout, msg_readme_warning) (output (main argv fs)) <->
   exists content, fs readme_path = Some (Text content) /\ ~ mentions content tv).
Proof.
  intros Hlen Hp Hi tv.
  assert (Hb : no_readme_line
                 (output (banner (nth 1 argv []) tv) ++
                  output (show_versions pv iv) ++
                  output (check_matches tv pv iv))).
  { unfold no_readme_line. rewrite !Forall_app.
    repeat split;
      [apply no_readme_line_banner | apply no_readme_line_show_versions
      | apply no_readme_line_check_matches]. }
  assert (E : exists after : list event,
             output (main argv fs) =
               (output (banner (nth 1 argv []) tv) ++
                output (show_versions pv iv) ++
                output (check_matches tv pv iv)) ++
               output (check_readme_version fs tv) ++ after /\
             no_readme_line after).
  { destruct (main_extracted_cases _ _ Hlen Hp Hi)
      as [[_ E] | (e & _ & Hr & E)]; fold tv in E; rewrite E.
    - eexists. split; [reflexivity|]. apply no_readme_line_report.
    - exists []. split; [|apply Forall_nil].
      fold tv in Hr. rewrite Hr. cbn [output fst].
      rewrite !app_nil_r. reflexivity. }
  destruct E as (after & E & Ha).
  assert (Hin : forall s : str,
             s = msg_readme_ok \/ s = msg_readme_warning ->
             In (Stdout, s) (output (main argv fs)) <->
             In (Stdout, s) (output (check_readme_version fs tv))).
  { intros s Hs. rewrite E.
    rewrite in_app_iff, (in_app_iff (output (check_readme_version fs tv))).
    split; [|tauto].
    unfold no_readme_line in Hb, Ha. rewrite Forall_forall in Hb, Ha.
    intros [H | [H | H]]; [| exact H |].
    - apply Hb in H. cbn [snd] in H. destruct Hs; tauto.
    - apply Ha in H. cbn [snd] in H. destruct Hs; tauto. }
  split; [|split].
  - eexists _, _. split; [exact E | split; [exact Hb | exact Ha]].
  - rewrite (Hin _ (or_introl eq_refl)).
    destruct (fs readme_path) as [[c | e] |] eqn:Ef.
    + rewrite (check_readme_version_text _ _ Ef).
      destruct (contains c tv || contains c (lit "v" ++ tv)) eqn:Ec.
      * apply contains_mentions in Ec. split.
        -- intros _. exists c. auto.
        -- intros _. left. reflexivity.
      * split.
        -- intros [H | []]; inversion H; congruence.
        -- intros [c' [Hc' Hm]]. inversion Hc'; subst c'.
           apply contains_mentions in Hm. congruence.
    + rewrite (check_readme_version_unreadable _ _ Ef).
      split; [intros [] | intros [c [Hc _]]; discriminate].
    + rewrite (check_readme_version_missing _ _ Ef).
      split; [intros [] | intros [c [Hc _]]; discriminate].
  - rewrite (Hin _ (or_intror eq_refl)).
    destruct (fs readme_path) as [[c | e] |] eqn:Ef.
    + rewrite (check_readme_version_text _ _ Ef).
      destruct (contains c tv || contains c (lit "v" ++ tv)) eqn:Ec.
      * apply contains_mentions in Ec. split.
        -- intros [H | []]; inversion H; congruence.
        -- intros [c' [Hc' Hm]]. inversion Hc'; subst c'. contradiction.
      * split.
        -- intros _. exists c. split; [reflexivity|].
           intros Hm. apply contains_mentions in Hm. congruence.
        -- intros _. left. reflexivity.
    + rewrite (check_readme_version_unreadable _ _ Ef).
      split; [intros [] | intros [c [Hc _]]; discriminate].
    + rewrite (check_readme_version_missing _ _ Ef).
      split; [intros [] | intros [c [Hc _]]; discriminate].
Qed.

Lemma readme_checked_against_tag_witness :
  In (Stdout, msg_readme_warning)
     (output (main (argv_of (lit "v1.3.0"))
                   (repo (lit "1.2.0") (lit "1.2.0")
                         (Some (lit "Install release 1.2.0"))))).
Proof.
  refine (proj2 (proj2 (proj2
            (@readme_checked_against_tag (argv_of (lit "v1.3.0"))
               (repo (lit "1.2.0") (lit "1.2.0")
                     (Some (lit "Install release 1.2.0")))
               (lit "1.2.0") (lit "1.2.0") eq_refl _ _))) _).
  - vm_compute. reflexivity.
  - vm_compute. reflexivity.
  - exists (lit "Install release 1.2.0"). split; [reflexivity|].
    intros Hm. apply contains_mentions in Hm. vm_compute in Hm.
    discriminate Hm.
Defined.

(** ** Streams *)

(** A run either prints on standard output only, or it has one argument,
    finds no manifest, and says so on standard error. *)
Lemma main_streams (argv : list str) (fs : FS) :
  all_on_stdout (output (main argv fs)) \/
  (List.length argv = 2 /\ fs pyproject_path = None /\
   main argv fs =
     (output (banner (nth 1 argv [])
                     (extract_version_from_tag (nth 1 argv []))) ++
      [(Stderr, msg_not_found pyproject_path)], Exit 1%Z)).
Proof.
  destruct (Nat.eqb (List.length argv) 2) eqn:Hlen.
  - apply Nat.eqb_eq in Hlen.
    destruct (get_pyproject_version_cases fs)
      as [[Hnone Ep] | [(c & Hc & Hs & Ep) | [(c & m & Hc & Hs & Ep)
         | (e & He & Ep)]]].
    + right. rewrite (main_pyproject_exit _ _ Hlen Ep). auto.
    + left. rewrite (main_pyproject_exit _ _ Hlen Ep).
      unfold output at 1. cbn [fst]. apply Forall_app. split.
      * apply all_on_stdout_banner.
      * each_line reflexivity.
    + assert (Hp : snd (get_pyproject_version fs) = Return (group1 m))
        by (rewrite Ep; reflexivity).
      left.
      destruct (get_init_version_cases fs)
        as [[Hnone Ei] | [(c' & Hc' & Hs' & Ei)
           | [(c' & m' & Hc' & Hs' & Ei) | (e & He & Ei)]]].
      * rewrite (main_init_exit _ _ Hlen Hp Ei).
        unfold output at 1. cbn [fst]. apply Forall_app. split.
        -- apply all_on_stdout_banner.
        -- each_line reflexivity.
      * rewrite (main_init_exit _ _ Hlen Hp Ei).
        unfold output at 1. cbn [fst]. apply Forall_app. split.
        -- apply all_on_stdout_banner.
        -- each_line reflexivity.
      * assert (Hi : snd (get_init_version fs) = Return (group1 m'))
          by (rewrite Ei; reflexivity).
        destruct (main_extracted_cases _ _ Hlen Hp Hi)
          as [[_ E] | (e & _ & _ & E)]; rewrite E;
          unfold output at 1; cbn [fst]; unfold all_on_stdout;
          rewrite !Forall_app; repeat split;
          first [ apply all_on_stdout_banner
                | apply all_on_stdout_show_versions
                | apply all_on_stdout_check_matches
                | apply all_on_stdout_check_readme_version
                | apply all_on_stdout_report ].
      * rewrite (main_init_raise _ _ Hlen Hp Ei).
        apply all_on_stdout_banner.
    + left. rewrite (main_pyproject_raise _ _ Hlen Ep).
      apply all_on_stdout_banner.
  - left. unfold main. rewrite Hlen. cbn. each_line reflexivity.
Qed.

(** C8: the program breaks the claim when pyproject.toml is missing.  The
    diagnostic of the missing manifest is printed on standard error, so
    not every line of that run is on standard output; the diagnostic of
    the sibling case, a missing module file, is printed on standard
    output. *)
Theorem missing_manifest_reported_on_stderr :
  let argv := argv_of (lit "v1.2.0") in
  main argv (files None None None) =
    (output (banner (lit "v1.2.0") (lit "1.2.0")) ++
     [(Stderr, msg_not_found pyproject_path)], Exit 1%Z) /\
  ~ all_on_stdout (output (main argv (files None None None))) /\
  main argv (files (Some (manifest_text (lit "1.2.0"))) None None) =
    (output (banner (lit "v1.2.0") (lit "1.2.0")) ++
     [(Stdout, msg_not_found init_path)], Exit 1%Z) /\
  all_on_stdout
    (output (main argv
               (files (Some (manifest_text (lit "1.2.0"))) None None))).
Proof.
  intros argv. split; [vm_compute; reflexivity|]. split; [|split].
  - unfold all_on_stdout. rewrite Forall_forall. intros H.
    specialize (H (Stderr, msg_not_found pyproject_path)).
    assert (Hin : In (Stderr, msg_not_found pyproject_path)
                     (output (main argv (files None None None)))).
    { vm_compute. right. right. left. reflexivity. }
    apply H in Hin. discriminate Hin.
  - vm_compute. reflexivity.
  - destruct (main_streams argv
                (files (Some (manifest_text (lit "1.2.0"))) None None))
      as [H | (_ & H & _)]; [exact H | discriminate H].
Qed.

(** ** The patterns *)

Lemma take_drop_while (p : char -> bool) (s : str) :
  take_while p s ++ drop_while p s = s.
Proof.
  induction s as [|c s IH]; simpl; [reflexivity|].
  destruct (p c); simpl; [rewrite IH|]; reflexivity.
Qed.

Lemma take_while_all (p : char -> bool) (s : str) :
  forallb p (take_while p s) = true.
Proof.
  induction s as [|c s IH]; simpl; [reflexivity|].
  destruct (p c) eqn:E; simpl; [rewrite E, IH|]; reflexivity.
Qed.

Lemma drop_while_length (p : char -> bool) (s : str) :
  List.length (drop_while p s) <= List.length s.
Proof.
  induction s as [|c s IH]; simpl; [lia|].
  destruct (p c); simpl; lia.
Qed.

Lemma firstn_take_while (p : char -> bool) (s : str) :
  firstn (List.length s - List.length (drop_while p s)) s = take_while p s.
Proof.
  induction s as [|c s IH]; [reflexivity|].
  cbn [take_while drop_while]. destruct (p c) eqn:E.
  - pose proof (drop_while_length p s) as Hle.
    replace (List.length (c :: s) - List.length (drop_while p s))
      with (S (List.length s - List.length (drop_while p s)))
      by (cbn [List.length]; lia).
    cbn [firstn]. rewrite IH. reflexivity.
  - rewrite Nat.sub_diag. reflexivity.
Qed.

Lemma take_while_stop (p : char -> bool) (ws : str) (c : char) (t : str) :
  forallb p ws = true -> p c = false ->
  take_while p (ws ++ c :: t) = ws /\ drop_while p (ws ++ c :: t) = c :: t.
Proof.
  intros Hws Hc. induction ws as [|w ws IH]; simpl.
  - rewrite Hc. auto.
  - simpl in Hws. apply andb_true_iff in Hws. destruct Hws as [Hw Hws].
    rewrite Hw. destruct (IH Hws) as [-> ->]. auto.
Qed.

(** A greedy repetition followed by something that rejects every
    character of the class never gives a character back. *)
Lemma star_k_skip (A : Type) (p : char -> bool) (s : str)
    (k : str -> option A) :
  (forall c t, p c = true -> k (c :: t) = None) ->
  star_k p s k = k (drop_while p s).
Proof.
  intros Hk. induction s as [|c s IH]; simpl; [reflexivity|].
  destruct (p c) eqn:E; [|reflexivity].
  rewrite IH. destruct (k (drop_while p s)) eqn:Ek; [reflexivity|].
  apply Hk. exact E.
Qed.

Lemma match_k_lits (A : Type) (key s : str) (g : option str)
    (k : str -> option str -> option A) :
  match_k (lits key) s g k =
  if startswith s key then k (skipn (List.length key) s) g else None.
Proof.
  revert s. induction key as [|c key IH]; intros s; [reflexivity|].
  cbn [lits cat_all map fold_right match_k startswith List.length].
  destruct s as [|x s]; [reflexivity|].
  destruct (N.eqb x c); [|reflexivity].
  cbn [andb skipn]. apply IH.
Qed.

Lemma quote_not_space (c : char) : is_quote c = true -> is_space c = false.
Proof.
  unfold is_quote. rewrite orb_true_iff, !N.eqb_eq.
  intros [-> | ->]; reflexivity.
Qed.

(** The backtracking matcher agrees with the reading from left to right. *)
Lemma re_match_at_assignment (key : str) (pos : nat) (s : str) :
  re_match_at (assignment_re key) pos s =
  option_map (fun v => mkMatch pos (Some v)) (assignment_at key s).
Proof.
  unfold re_match_at, assignment_re, assignment_at.
  cbn [cat_all fold_right match_k]. rewrite match_k_lits.
  destruct (startswith s key); [|reflexivity].
  rewrite star_k_skip.
  2:{ intros c t Hc. destruct (N.eqb c 61) eqn:E; [|reflexivity].
      apply N.eqb_eq in E. subst c. discriminate Hc. }
  destruct (drop_while is_space (skipn (List.length key) s)) as [|e s2];
    [reflexivity|].
  destruct (N.eqb e 61); [|reflexivity].
  rewrite star_k_skip.
  2:{ intros c t Hc. destruct (is_quote c) eqn:E; [|reflexivity].
      apply quote_not_space in E. congruence. }
  destruct (drop_while is_space s2) as [|q1 s4]; [reflexivity|].
  destruct (is_quote q1); [|reflexivity].
  destruct s4 as [|y s5]; [reflexivity|].
  destruct (not_quote y) eqn:Ey; [|reflexivity].
  rewrite star_k_skip.
  2:{ intros c t Hc. unfold not_quote in Hc.
      destruct (is_quote c); [discriminate Hc | reflexivity]. }
  pose proof (drop_while_length not_quote s5) as Hle.
  pose proof (firstn_take_while not_quote s5) as Hf.
  destruct (drop_while not_quote s5) as [|q2 s6]; [reflexivity|].
  destruct (is_quote q2); [|reflexivity].
  cbn [option_map]. do 3 f_equal.
  replace (List.length (y :: s5) - List.length (q2 :: s6))
    with (S (List.length s5 - List.length (q2 :: s6)))
    by (cbn [List.length] in *; lia).
  cbn [firstn]. rewrite Hf. reflexivity.
Qed.

Lemma skipn_key (key rest : str) :
  skipn (List.length key) (key ++ rest) = rest.
Proof. induction key as [|c key IH]; [reflexivity | exact IH]. Qed.

Lemma app_same_length (a b c d : str) :
  a ++ b = c ++ d -> List.length a = List.length c -> a = c /\ b = d.
Proof.
  revert c. induction a as [|x a IH]; intros [|y c] H Hlen;
    try discriminate Hlen.
  - auto.
  - simpl in H. inversion H; subst. injection Hlen as Hlen.
    destruct (IH c H2 Hlen) as [-> ->]. auto.
Qed.

(** The reading from left to right finds the occurrences that start at the
    head of the text. *)
Lemma assignment_at_here (key s v : str) :
  assignment_at key s = Some v <-> occurrence key s [] v.
Proof.
  split.
  - intros H. unfold assignment_at in H.
    destruct (startswith s key) eqn:Es; [|discriminate H].
    apply startswith_prefix in Es. destruct Es as [rest ->].
    rewrite skipn_key in H.
    pose proof (take_drop_while is_space rest) as R1.
    pose proof (take_while_all is_space rest) as A1.
    remember (take_while is_space rest) as ws1 eqn:W1. clear W1.
    destruct (drop_while is_space rest) as [|e s2]; [discriminate H|].
    destruct (N.eqb e 61) eqn:Ee; [|discriminate H].
    apply N.eqb_eq in Ee. subst e rest.
    pose proof (take_drop_while is_space s2) as R2.
    pose proof (take_while_all is_space s2) as A2.
    remember (take_while is_space s2) as ws2 eqn:W2. clear W2.
    destruct (drop_while is_space s2) as [|q1 s4]; [discriminate H|].
    destruct (is_quote q1) eqn:Eq1; [|discriminate H].
    destruct s4 as [|y s5]; [discriminate H|].
    destruct (not_quote y) eqn:Ey; [|discriminate H]. subst s2.
    pose proof (take_drop_while not_quote s5) as R3.
    pose proof (take_while_all not_quote s5) as A3.
    remember (take_while not_quote s5) as v' eqn:W3. clear W3.
    destruct (drop_while not_quote s5) as [|q2 s6]; [discriminate H|].
    destruct (is_quote q2) eqn:Eq2; [|discriminate H].
    inversion H; subst v s5. clear H.
    exists ws1, ws2, q1, q2, s6. repeat split; auto.
    + discriminate.
    + cbn [forallb]. rewrite Ey, A3. reflexivity.
  - intros (ws1 & ws2 & q1 & q2 & post & -> & A1 & A2 & Eq1 & Eq2 & Hv & A3).
    cbn [app]. unfold assignment_at.
    rewrite startswith_app, skipn_key.
    destruct (@take_while_stop is_space ws1 61%N
                (ws2 ++ q1 :: v ++ q2 :: post) A1 eq_refl) as [_ ->].
    cbn [N.eqb Pos.eqb].
    destruct (@take_while_stop is_space ws2 q1 (v ++ q2 :: post) A2
                (quote_not_space _ Eq1)) as [_ ->].
    rewrite Eq1.
    destruct v as [|y v']; [contradiction|].
    cbn [forallb] in A3. apply andb_true_iff in A3. destruct A3 as [Ey A3].
    cbn [app]. rewrite Ey.
    assert (Hq2 : not_quote q2 = false)
      by (unfold not_quote; rewrite Eq2; reflexivity).
    destruct (@take_while_stop not_quote v' q2 post A3 Hq2) as [-> ->].
    rewrite Eq2. reflexivity.
Qed.

Lemma occurrence_suffix (key content pre v : str) :
  occurrence key content pre v <->
  exists suf, content = pre ++ suf /\ assignment_at key suf = Some v.
Proof.
  split.
  - intros (ws1 & ws2 & q1 & q2 & post & E & H).
    eexists. split; [exact E|].
    apply assignment_at_here. exists ws1, ws2, q1, q2, post.
    split; [reflexivity | exact H].
  - intros (suf & -> & H). apply assignment_at_here in H.
    destruct H as (ws1 & ws2 & q1 & q2 & post & E & H).
    exists ws1, ws2, q1, q2, post. split; [|exact H].
    rewrite E. reflexivity.
Qed.

(** [re.search] fails exactly when no position has a match. *)
Lemma re_search_from_none (key s : str) :
  forall pos : nat,
    re_search_from (assignment_re key) pos s = None <->
    forall pre suf, s = pre ++ suf -> assignment_at key suf = None.
Proof.
  induction s as [|c s IH]; intros pos; cbn [re_search_from];
    rewrite re_match_at_assignment.
  - destruct (assignment_at key []) eqn:E; cbn [option_map]; split.
    + discriminate.
    + intros H. specialize (H [] [] eq_refl). congruence.
    + intros _ pre suf H. symmetry in H. apply app_eq_nil in H.
      destruct H as [_ ->]. exact E.
    + reflexivity.
  - destruct (assignment_at key (c :: s)) eqn:E; cbn [option_map]; split.
    + discriminate.
    + intros H. specialize (H [] (c :: s) eq_refl). congruence.
    + intros H pre suf Hs. destruct pre as [|x pre].
      * simpl in Hs. subst suf. exact E.
      * simpl in Hs. inversion Hs; subst.
        apply (proj1 (IH (S pos)) H pre suf eq_refl).
    + intros H. apply (IH (S pos)). intros pre suf ->.
      apply (H (c :: pre) suf). reflexivity.
Qed.

(** [re.search] returns the match at the leftmost position that has one. *)
Lemma re_search_from_some (key s : str) :
  forall (pos : nat) (m : Match),
    re_search_from (assignment_re key) pos s = Some m ->
    exists pre suf v,
      s = pre ++ suf /\
      m = mkMatch (pos + List.length pre) (Some v) /\
      assignment_at key suf = Some v /\
      forall pre' suf',
        s = pre' ++ suf' -> List.length pre' < List.length pre ->
        assignment_at key suf' = None.
Proof.
  induction s as [|c s IH]; intros pos m; cbn [re_search_from];
    rewrite re_match_at_assignment.
  - destruct (assignment_at key []) as [v|] eqn:E; cbn [option_map];
      [|discriminate].
    intros H. inversion H; subst m. exists [], [], v.
    cbn [List.length]. rewrite Nat.add_0_r.
    repeat split; auto. intros pre' suf' _ Hlt. inversion Hlt.
  - destruct (assignment_at key (c :: s)) as [v|] eqn:E; cbn [option_map].
    + intros H. inversion H; subst m. exists [], (c :: s), v.
      cbn [List.length]. rewrite Nat.add_0_r.
      repeat split; auto. intros pre' suf' _ Hlt. inversion Hlt.
    + intros H. apply IH in H.
      destruct H as (pre & suf & v & -> & -> & Hv & Hmin).
      exists (c :: pre), suf, v. cbn [List.length].
      replace (pos + S (List.length pre)) with (S pos + List.length pre)
        by lia.
      repeat split; auto.
      intros pre' suf' Hs Hlt. destruct pre' as [|x pre'].
      * simpl in Hs. subst suf'. exact E.
      * simpl in Hs. inversion Hs; subst.
        apply (Hmin pre' suf' H1). cbn [List.length] in Hlt. lia.
Qed.

Lemma re_search_no_occurrence (key content : str) :
  re_search (assignment_re key) content = None <->
  no_occurrence key content.
Proof.
  unfold re_search, no_occurrence. rewrite re_search_from_none. split.
  - intros H pre v Ho. apply occurrence_suffix in Ho.
    destruct Ho as (suf & E & Ha). rewrite (H pre suf E) in Ha.
    discriminate Ha.
  - intros H pre suf E. destruct (assignment_at key suf) as [v|] eqn:Ha;
      [|reflexivity].
    exfalso. apply (H pre v). apply occurrence_suffix. eauto.
Qed.

Lemma re_search_first_occurrence (key content v : str) :
  (exists m, re_search (assignment_re key) content = Some m /\
             group1 m = v) <->
  first_occurrence key content v.
Proof.
  unfold first_occurrence. split.
  - intros (m & Hs & Hg). apply re_search_from_some in Hs.
    destruct Hs as (pre & suf & v0 & E & -> & Ha & Hmin).
    cbn in Hg. subst v0. exists pre. split.
    + apply occurrence_suffix. eauto.
    + intros pre' v' Ho. apply occurrence_suffix in Ho.
      destruct Ho as (suf' & E' & Ha').
      destruct (Nat.le_gt_cases (List.length pre) (List.length pre'))
        as [Hle | Hlt]; [exact Hle|].
      rewrite (Hmin pre' suf' E' Hlt) in Ha'. discriminate Ha'.
  - intros (pre & Ho & Hfirst).
    destruct (re_search (assignment_re key) content) as [m|] eqn:Hs.
    + exists m. split; [reflexivity|].
      apply re_search_from_some in Hs.
      destruct Hs as (pre0 & suf0 & v0 & E0 & -> & Ha0 & Hmin).
      cbn. apply occurrence_suffix in Ho. destruct Ho as (suf & E & Ha).
      assert (Hle : List.length pre <= List.length pre0).
      { apply (Hfirst pre0 v0). apply occurrence_suffix. eauto. }
      assert (Hge : List.length pre0 <= List.length pre).
      { destruct (Nat.le_gt_cases (List.length pre0) (List.length pre))
          as [H | H]; [exact H|].
        rewrite (Hmin pre suf E H) in Ha. discriminate Ha. }
      assert (Hlen : List.length pre0 = List.length pre) by lia.
      rewrite E in E0. symmetry in E0.
      destruct (app_same_length _ _ _ _ E0 Hlen) as [_ ->].
      congruence.
    + apply re_search_no_occurrence in Hs. exfalso. exact (Hs pre v Ho).
Qed.

(** ** The extractors *)

(** C7: the program breaks the claim.  The search is not anchored, so a
    key that only ends in version is the source of the returned string:
    the value 9.9 of the key my_version is returned although the key
    version is assigned 1.0 on the next line; and with a tool section that
    assigns target-version before the project section, the manifest
    extractor returns py311, so that the tag v1.2.0 is refused although the
    project version and the module version are 1.2.0. *)
Theorem longer_key_is_matched :
  get_pyproject_version (files (Some manifest_with_longer_key) None None) =
    ([], Return (lit "9.9")) /\
  occurrence (lit "version") manifest_with_longer_key
    (lit "my_version = '9.9'" ++ newline) (lit "1.0") /\
  get_pyproject_version (files (Some manifest_with_tool_key) None None) =
    ([], Return (lit "py311")) /\
  exit_status
    (main (argv_of (lit "v1.2.0"))
          (files (Some manifest_with_tool_key)
                 (Some (module_text (lit "1.2.0"))) None)) = 1%Z.
Proof.
  split; [vm_compute; reflexivity|]. split; [|split].
  - apply occurrence_suffix. exists (lit "version = '1.0'").
    split; vm_compute; reflexivity.
  - vm_compute. reflexivity.
  - vm_compute. reflexivity.
Qed.

(** ** Failing fast *)

(** C4, as it is stated, fails: the module file is missing, but the
    manifest, read first, declares no version; the run stops on that, and
    no line that it prints names the missing path. *)
Lemma missing_module_not_named :
  repo_without_module init_path = None /\
  repo_without_module pyproject_path <> None /\
  main (argv_of (lit "v1.2.0")) repo_without_module =
    (output (banner (lit "v1.2.0") (lit "1.2.0")) ++
     [(Stdout, msg_no_pyproject_version)], Exit 1%Z) /\
  forallb (fun e => negb (contains (snd e) (lit init_path)))
          (output (main (argv_of (lit "v1.2.0")) repo_without_module))
    = true.
Proof.
  repeat split; try (vm_compute; reflexivity). discriminate.
Qed.

(** C4, amended: a run with one argument in which a mandatory file is
    missing ends with status 1 before any comparison: after the banner and
    one diagnostic, or, when the manifest exists and cannot be read, after
    the banner, by the exception of the read.  The diagnostic names
    pyproject.toml when the manifest is missing; it names
    a2ui_pydantic/__init__.py when the manifest version was extracted and
    the module file is missing.  A run with another number of arguments
    prints the usage text and ends with status 1. *)
Theorem missing_file_fails_fast (argv : list str) (fs : FS) :
  let lead :=
    output (banner (nth 1 argv [])
                   (extract_version_from_tag (nth 1 argv []))) in
  (List.length argv = 2 -> fs pyproject_path = None ->
   main argv fs =
     (lead ++ [(Stderr, msg_not_found pyproject_path)], Exit 1%Z)) /\
  (List.length argv = 2 ->
   forall pv : str,
     snd (get_pyproject_version fs) = Return pv ->
     fs init_path = None ->
     main argv fs =
       (lead ++ [(Stdout, msg_not_found init_path)], Exit 1%Z)) /\
  (List.length argv = 2 ->
   fs pyproject_path = None \/ fs init_path = None ->
   exit_status (main argv fs) = 1%Z /\
   ((exists d : event,
        main argv fs = (lead ++ [d], Exit 1%Z) /\
        (d = (Stderr, msg_not_found pyproject_path) \/
         d = (Stdout, msg_no_pyproject_version) \/
         d = (Stdout, msg_not_found init_path))) \/
    (exists e : exn,
        fs pyproject_path = Some (Unreadable e) /\
        main argv fs = (lead, Raise e)))) /\
  (List.length argv <> 2 ->
   main argv fs =
     ([(Stdout, lit "Usage: python scripts/verify_version.py <tag_name>");
       (Stdout, lit "Example: python scripts/verify_version.py v0.1.0")],
      Exit 1%Z)) /\
  (forall p : path, substring (lit p) (msg_not_found p)).
Proof.
  intros lead.
  assert (Hman : List.length argv = 2 -> fs pyproject_path = None ->
                 main argv fs =
                 (lead ++ [(Stderr, msg_not_found pyproject_path)],
                  Exit 1%Z)).
  { intros Hlen Hnone. apply (main_pyproject_exit _ _ Hlen).
    apply get_pyproject_version_missing. exact Hnone. }
  assert (Hmod : List.length argv = 2 ->
                 forall pv : str,
                   snd (get_pyproject_version fs) = Return pv ->
                   fs init_path = None ->
                   main argv fs =
                   (lead ++ [(Stdout, msg_not_found init_path)], Exit 1%Z)).
  { intros Hlen pv Hp Hnone. apply (main_init_exit _ _ Hlen Hp).
    apply get_init_version_missing. exact Hnone. }
  split; [exact Hman|]. split; [exact Hmod|]. split; [|split].
  - intros Hlen Hmiss.
    destruct (get_pyproject_version_cases fs)
      as [[Hnone Ep] | [(c & Hc & Hs & Ep) | [(c & m & Hc & Hs & Ep)
         | (e & He & Ep)]]].
    + rewrite (Hman Hlen Hnone). split; [reflexivity|]. left.
      eexists. split; [reflexivity | auto].
    + rewrite (main_pyproject_exit _ _ Hlen Ep). split; [reflexivity|].
      left. eexists. split; [reflexivity | auto].
    + destruct Hmiss as [Hnone | Hnone]; [congruence|].
      assert (Hp : snd (get_pyproject_version fs) = Return (group1 m))
        by (rewrite Ep; reflexivity).
      rewrite (Hmod Hlen _ Hp Hnone). split; [reflexivity|]. left.
      eexists. split; [reflexivity | auto].
    + rewrite (main_pyproject_raise _ _ Hlen Ep). split; [reflexivity|].
      right. exists e. auto.
  - intros Hlen. unfold main. apply Nat.eqb_neq in Hlen. rewrite Hlen.
    reflexivity.
  - intros p. exists (cross_mark ++ lit " Error: "), (lit " not found").
    unfold msg_not_found. rewrite <- !app_assoc. reflexivity.
Qed.

Lemma missing_file_fails_fast_witness :
  main (argv_of (lit "v1.2.0"))
       (files (Some (manifest_text (lit "1.2.0"))) None None) =
  (output (banner (lit "v1.2.0") (lit "1.2.0")) ++
   [(Stdout, msg_not_found init_path)], Exit 1%Z).
Proof.
  refine (proj1 (proj2 (@missing_file_fails_fast
                          (argv_of (lit "v1.2.0"))
                          (files (Some (manifest_text (lit "1.2.0")))
                                 None None)))
            eq_refl (lit "1.2.0") _ eq_refl).
  vm_compute. reflexivity.
Defined.

(** C5, as it is stated, fails: the module file exists and holds no
    occurrence of its pattern, but the manifest, read first, is missing;
    the run stops on that and prints no line that says that a version
    could not be found. *)
Lemma missing_pattern_not_reported :
  repo_without_manifest init_path =
    Some (Text (lit "# a2ui_pydantic package")) /\
  no_occurrence (lit "__version__") (lit "# a2ui_pydantic package") /\
  main (argv_of (lit "v1.2.0")) repo_without_manifest =
    (output (banner (lit "v1.2.0") (lit "1.2.0")) ++
     [(Stderr, msg_not_found pyproject_path)], Exit 1%Z) /\
  forallb (fun e => negb (contains (snd e) (lit "ould not find")))
          (output (main (argv_of (lit "v1.2.0")) repo_without_manifest))
    = true.
Proof.
  repeat split; try (vm_compute; reflexivity).
  apply re_search_no_occurrence. vm_compute. reflexivity.
Qed.

(** C5, amended: in a run with one argument, a manifest that exists and
    holds no occurrence of its pattern ends the run with status 1 after
    the banner and the diagnostic that names pyproject.toml; a module file
    that exists and holds no occurrence of its pattern does the same with
    the diagnostic that names a2ui_pydantic/__init__.py when the manifest
    version was extracted.  Whenever one of the two files is a text
    without its pattern the run ends with status 1 and without any
    comparison: after the banner and one diagnostic, or, when the manifest
    exists and cannot be read, after the banner, by the exception of the
    read. *)
Theorem missing_pattern_fails_fast (argv : list str) (fs : FS) :
  List.length argv = 2 ->
  let lead :=
    output (banner (nth 1 argv [])
                   (extract_version_from_tag (nth 1 argv []))) in
  (forall c : str,
      fs pyproject_path = Some (Text c) ->
      no_occurrence (lit "version") c ->
      main argv fs =
        (lead ++ [(Stdout, msg_no_pyproject_version)], Exit 1%Z)) /\
  (forall pv c : str,
      snd (get_pyproject_version fs) = Return pv ->
      fs init_path = Some (Text c) ->
      no_occurrence (lit "__version__") c ->
      main argv fs = (lead ++ [(Stdout, msg_no_init_version)], Exit 1%Z)) /\
  ((exists c, fs pyproject_path = Some (Text c) /\
               no_occurrence (lit "version") c) \/
   (exists c, fs init_path = Some (Text c) /\
               no_occurrence (lit "__version__") c) ->
   exit_status (main argv fs) = 1%Z /\
   ((exists d : event,
        main argv fs = (lead ++ [d], Exit 1%Z) /\
        (d = (Stdout, msg_no_pyproject_version) \/
         d = (Stdout, msg_no_init_version) \/
         d = (Stderr, msg_not_found pyproject_path))) \/
    (exists e : exn,
        fs pyproject_path = Some (Unreadable e) /\
        main argv fs = (lead, Raise e)))) /\
  substring (lit "Could not find version in pyproject.toml")
    msg_no_pyproject_version /\
  substring (lit "Could not find __version__ in a2ui_pydantic/__init__.py")
    msg_no_init_version.
Proof.
  intros Hlen lead.
  assert (Hman : forall c : str,
             fs pyproject_path = Some (Text c) ->
             no_occurrence (lit "version") c ->
             main argv fs =
             (lead ++ [(Stdout, msg_no_pyproject_version)], Exit 1%Z)).
  { intros c Hc Hno. apply (main_pyproject_exit _ _ Hlen).
    rewrite (get_pyproject_version_text _ Hc).
    apply re_search_no_occurrence in Hno. fold pyproject_re in Hno.
    rewrite Hno. reflexivity. }
  assert (Hmod : forall pv c : str,
             snd (get_pyproject_version fs) = Return pv ->
             fs init_path = Some (Text c) ->
             no_occurrence (lit "__version__") c ->
             main argv fs =
             (lead ++ [(Stdout, msg_no_init_version)], Exit 1%Z)).
  { intros pv c Hp Hc Hno. apply (main_init_exit _ _ Hlen Hp).
    rewrite (get_init_version_text _ Hc).
    apply re_search_no_occurrence in Hno. fold init_re in Hno.
    rewrite Hno. reflexivity. }
  split; [exact Hman|]. split; [exact Hmod|]. split; [|split].
  - intros Hbad.
    destruct (get_pyproject_version_cases fs)
      as [[Hnone Ep] | [(c & Hc & Hs & Ep) | [(c & m & Hc & Hs & Ep)
         | (e & He & Ep)]]].
    + rewrite (main_pyproject_exit _ _ Hlen Ep). split; [reflexivity|].
      left. eexists. split; [reflexivity | auto].
    + rewrite (main_pyproject_exit _ _ Hlen Ep). split; [reflexivity|].
      left. eexists. split; [reflexivity | auto].
    + assert (Hp : snd (get_pyproject_version fs) = Return (group1 m))
        by (rewrite Ep; reflexivity).
      destruct Hbad as [(c' & Hc' & Hno) | (c' & Hc' & Hno)].
      * apply re_search_no_occurrence in Hno. fold pyproject_re in Hno.
        congruence.
      * rewrite (Hmod _ c' Hp Hc' Hno). split; [reflexivity|].
        left. eexists. split; [reflexivity | auto].
    + rewrite (main_pyproject_raise _ _ Hlen Ep). split; [reflexivity|].
      right. exists e. auto.
  - exists (cross_mark ++ lit " Error: "), []. vm_compute. reflexivity.
  - exists (cross_mark ++ lit " Error: "), []. vm_compute. reflexivity.
Qed.

Lemma missing_pattern_fails_fast_witness :
  main (argv_of (lit "v1.2.0")) repo_without_module =
  (output (banner (lit "v1.2.0") (lit "1.2.0")) ++
   [(Stdout, msg_no_pyproject_version)], Exit 1%Z).
Proof.
  refine (proj1 (@missing_pattern_fails_fast
                   (argv_of (lit "v1.2.0")) repo_without_module eq_refl)
            (lit "[project]" ++ newline ++ lit "name = 'a2ui-pydantic'")
            eq_refl _).
  apply re_search_no_occurrence. vm_compute. reflexivity.
Defined.

(** * Further properties of the script *)

(** ** When a run succeeds *)

Lemma get_pyproject_version_first_occurrence (fs : FS) (c v : str) :
  fs pyproject_path = Some (Text c) ->
  (get_pyproject_version fs = ([], Return v) <->
   first_occurrence (lit "version") c v).
Proof.
  intros Hc. rewrite (get_pyproject_version_text _ Hc).
  rewrite <- re_search_first_occurrence. fold pyproject_re.
  destruct (re_search pyproject_re c) as [m|]; split.
  - intros H. inversion H. eauto.
  - intros (m' & Hm & <-). inversion Hm. reflexivity.
  - intros H. discriminate H.
  - intros (m' & Hm & _). discriminate Hm.
Qed.

Lemma get_init_version_first_occurrence (fs : FS) (c v : str) :
  fs init_path = Some (Text c) ->
  (get_init_version fs = ([], Return v) <->
   first_occurrence (lit "__version__") c v).
Proof.
  intros Hc. rewrite (get_init_version_text _ Hc).
  rewrite <- re_search_first_occurrence. fold init_re.
  destruct (re_search init_re c) as [m|]; split.
  - intros H. inversion H. eauto.
  - intros (m' & Hm & <-). inversion Hm. reflexivity.
  - intros H. discriminate H.
  - intros (m' & Hm & _). discriminate Hm.
Qed.

Lemma snd_report (errors : list str) :
  snd (report errors) =
  Exit (match errors with [] => 0 | _ :: _ => 1 end)%Z.
Proof.
  destruct errors as [|e errors]; [reflexivity|].
  unfold report. rewrite print_errors_run. reflexivity.
Qed.

(** How a run ends: by [sys.exit] with status 0 or 1, or by the exception
    of a file that exists and cannot be read. *)
Lemma main_ends (argv : list str) (fs : FS) :
  snd (main argv fs) = Exit 0%Z \/
  snd (main argv fs) = Exit 1%Z \/
  (exists e : exn,
      snd (main argv fs) = Raise e /\
      List.length argv = 2 /\
      (fs pyproject_path = Some (Unreadable e) \/
       (exists pv, snd (get_pyproject_version fs) = Return pv /\
                   fs init_path = Some (Unreadable e)) \/
       (exists pv iv, snd (get_pyproject_version fs) = Return pv /\
                      snd (get_init_version fs) = Return iv /\
                      fs readme_path = Some (Unreadable e)))).
Proof.
  destruct (Nat.eqb (List.length argv) 2) eqn:Hlen.
  - apply Nat.eqb_eq in Hlen.
    destruct (get_pyproject_version_cases fs)
      as [[_ Ep] | [(c & _ & _ & Ep) | [(c & m & _ & _ & Ep)
         | (e & He & Ep)]]].
    + rewrite (main_pyproject_exit _ _ Hlen Ep). auto.
    + rewrite (main_pyproject_exit _ _ Hlen Ep). auto.
    + assert (Hp : snd (get_pyproject_version fs) = Return (group1 m))
        by (rewrite Ep; reflexivity).
      destruct (get_init_version_cases fs)
        as [[_ Ei] | [(c' & _ & _ & Ei) | [(c' & m' & _ & _ & Ei)
           | (e & He & Ei)]]].
      * rewrite (main_init_exit _ _ Hlen Hp Ei). auto.
      * rewrite (main_init_exit _ _ Hlen Hp Ei). auto.
      * assert (Hi : snd (get_init_version fs) = Return (group1 m'))
          by (rewrite Ei; reflexivity).
        destruct (main_extracted_cases _ _ Hlen Hp Hi)
          as [[_ E] | (e & He & _ & E)]; rewrite E; cbn [snd].
        -- rewrite snd_report.
           destruct (mismatches (extract_version_from_tag (nth 1 argv []))
                       (group1 m) (group1 m')); auto.
        -- right. right. exists e. repeat split; auto.
           right. right. eauto.
      * rewrite (main_init_raise _ _ Hlen Hp Ei). right. right.
        exists e. repeat split; auto. right. left. eauto.
    + rewrite (main_pyproject_raise _ _ Hlen Ep). right. right.
      exists e. repeat split; auto.
  - right. left. unfold main. rewrite Hlen. reflexivity.
Qed.

(** A run that ends with status 0 has one argument, extracted the tag
    version from both files, and found README.md missing or readable. *)
Lemma exit_zero_extracted (argv : list str) (fs : FS) :
  exit_status (main argv fs) = 0%Z ->
  List.length argv = 2 /\
  snd (get_pyproject_version fs) =
    Return (extract_version_from_tag (nth 1 argv [])) /\
  snd (get_init_version fs) =
    Return (extract_version_from_tag (nth 1 argv [])) /\
  (forall e, fs readme_path <> Some (Unreadable e)).
Proof.
  set (tv := extract_version_from_tag (nth 1 argv [])). intros H0.
  destruct (Nat.eqb (List.length argv) 2) eqn:Hlen.
  2:{ unfold main in H0. rewrite Hlen in H0. discriminate H0. }
  apply Nat.eqb_eq in Hlen. split; [exact Hlen|].
  destruct (get_pyproject_version_cases fs)
    as [[_ Ep] | [(c & _ & _ & Ep) | [(c & m & Hc & Hs & Ep)
       | (e & _ & Ep)]]].
  - rewrite (main_pyproject_exit _ _ Hlen Ep) in H0. discriminate H0.
  - rewrite (main_pyproject_exit _ _ Hlen Ep) in H0. discriminate H0.
  - assert (Hp : snd (get_pyproject_version fs) = Return (group1 m))
      by (rewrite Ep; reflexivity).
    destruct (get_init_version_cases fs)
      as [[_ Ei] | [(c' & _ & _ & Ei) | [(c' & m' & Hc' & Hs' & Ei)
         | (e & _ & Ei)]]].
    + rewrite (main_init_exit _ _ Hlen Hp Ei) in H0. discriminate H0.
    + rewrite (main_init_exit _ _ Hlen Hp Ei) in H0. discriminate H0.
    + assert (Hi : snd (get_init_version fs) = Return (group1 m'))
        by (rewrite Ei; reflexivity).
      rewrite (exit_status_main_extracted _ _ Hlen Hp Hi) in H0.
      fold tv in H0.
      assert (Hr : forall e, fs readme_path <> Some (Unreadable e)).
      { intros e He.
        rewrite (check_readme_version_unreadable _ tv He) in H0.
        discriminate H0. }
      rewrite (check_readme_version_readable _ tv Hr) in H0.
      destruct (mismatches tv (group1 m) (group1 m')) eqn:Em;
        [|discriminate H0].
      apply mismatches_nil in Em. destruct Em as (E1 & E2 & _).
      rewrite Hp, Hi, <- E1, <- E2. auto.
    + rewrite (main_init_raise _ _ Hlen Hp Ei) in H0. discriminate H0.
  - rewrite (main_pyproject_raise _ _ Hlen Ep) in H0. discriminate H0.
Qed.

(** X1: a run ends with status 0 exactly when it has one argument, both
    mandatory files exist and can be read, the first occurrence of the
    pattern in each of them holds the version taken from the tag, and
    README.md is missing or can be read. *)
Theorem run_succeeds_iff (argv : list str) (fs : FS) :
  exit_status (main argv fs) = 0%Z <->
  List.length argv = 2 /\
  (exists manifest module : str,
      fs pyproject_path = Some (Text manifest) /\
      fs init_path = Some (Text module) /\
      first_occurrence (lit "version") manifest
        (extract_version_from_tag (nth 1 argv [])) /\
      first_occurrence (lit "__version__") module
        (extract_version_from_tag (nth 1 argv []))) /\
  (forall e : exn, fs readme_path <> Some (Unreadable e)).
Proof.
  set (tv := extract_version_from_tag (nth 1 argv [])). split.
  - intros H0. apply exit_zero_extracted in H0. fold tv in H0.
    destruct H0 as (Hlen & Hp & Hi & Hr).
    split; [exact Hlen|]. split; [|exact Hr].
    apply get_pyproject_version_returns in Hp.
    apply get_init_version_returns in Hi.
    destruct (fs pyproject_path) as [[c | e] |] eqn:Hc.
    2:{ rewrite (get_pyproject_version_unreadable _ Hc) in Hp.
        discriminate Hp. }
    2:{ rewrite (get_pyproject_version_missing _ Hc) in Hp.
        discriminate Hp. }
    destruct (fs init_path) as [[c' | e] |] eqn:Hc'.
    2:{ rewrite (get_init_version_unreadable _ Hc') in Hi.
        discriminate Hi. }
    2:{ rewrite (get_init_version_missing _ Hc') in Hi. discriminate Hi. }
    exists c, c'. repeat split.
    + apply (@get_pyproject_version_first_occurrence fs c tv Hc). exact Hp.
    + apply (@get_init_version_first_occurrence fs c' tv Hc'). exact Hi.
  - intros (Hlen & (c & c' & Hc & Hc' & Hp & Hi) & Hr).
    apply (@get_pyproject_version_first_occurrence fs c tv Hc) in Hp.
    apply (@get_init_version_first_occurrence fs c' tv Hc') in Hi.
    apply (f_equal snd) in Hp. apply (f_equal snd) in Hi.
    cbn [snd] in Hp, Hi.
    rewrite (exit_status_main_extracted _ _ Hlen Hp Hi). fold tv.
    rewrite (check_readme_version_readable _ tv Hr).
    replace (mismatches tv tv tv) with (@nil (list N));
      [reflexivity|].
    symmetry. apply mismatches_nil. auto.
Qed.

Lemma run_succeeds_iff_witness :
  exit_status (main (argv_of (lit "v1.2.0"))
                    (repo (lit "1.2.0") (lit "1.2.0")
                          (Some (lit "Usage")))) = 0%Z.
Proof.
  apply (proj2 (run_succeeds_iff (argv_of (lit "v1.2.0"))
                  (repo (lit "1.2.0") (lit "1.2.0") (Some (lit "Usage"))))).
  split; [reflexivity|]. split.
  - exists (manifest_text (lit "1.2.0")), (module_text (lit "1.2.0")).
    split; [reflexivity|]. split; [reflexivity|]. split.
    + apply re_search_first_occurrence. eexists. split;
        vm_compute; reflexivity.
    + apply re_search_first_occurrence. eexists. split;
        vm_compute; reflexivity.
  - intros e H. vm_compute in H. discriminate H.
Defined.

(** X6: how a run ends.  It never reaches the end of the script: it ends
    by [sys.exit] with status 0 or 1, or by an exception that [read_text]
    raises and nothing catches.  The exception ends it exactly when the
    run has one argument and comes to read a file that exists and cannot
    be read: the manifest, the module file once the manifest version is
    extracted, or README.md once both versions are extracted.  The exit
    status of the process is 0 or 1 in every case. *)
Theorem run_ends_by_exit_or_exception (argv : list str) (fs : FS) :
  (snd (main argv fs) = Exit 0%Z \/
   snd (main argv fs) = Exit 1%Z \/
   exists e : exn, snd (main argv fs) = Raise e) /\
  (exit_status (main argv fs) = 0%Z \/ exit_status (main argv fs) = 1%Z) /\
  (forall e : exn,
      snd (main argv fs) = Raise e <->
      List.length argv = 2 /\
      (fs pyproject_path = Some (Unreadable e) \/
       (exists pv, snd (get_pyproject_version fs) = Return pv /\
                   fs init_path = Some (Unreadable e)) \/
       (exists pv iv, snd (get_pyproject_version fs) = Return pv /\
                      snd (get_init_version fs) = Return iv /\
                      fs readme_path = Some (Unreadable e)))).
Proof.
  split; [|split].
  - destruct (main_ends argv fs) as [H | [H | (e & H & _)]]; eauto.
  - unfold exit_status.
    destruct (main_ends argv fs) as [H | [H | (e & H & _)]];
      rewrite H; auto.
  - intros e. split.
    + intros H.
      destruct (main_ends argv fs) as [H' | [H' | (e' & H' & Hl & Hc)]];
        rewrite H' in H; try discriminate H.
      inversion H; subst e'. auto.
    + intros (Hlen & [He | [(pv & Hp & He) | (pv & iv & Hp & Hi & He)]]).
      * rewrite (main_pyproject_raise _ _ Hlen
                   (get_pyproject_version_unreadable _ He)).
        reflexivity.
      * rewrite (main_init_raise _ _ Hlen Hp
                   (get_init_version_unreadable _ He)).
        reflexivity.
      * exact (proj1 (unreadable_readme_ends_run _ _ Hlen Hp Hi He)).
Qed.

Lemma run_ends_by_exit_or_exception_witness :
  snd (main (argv_of (lit "v1.2.0"))
            (with_unreadable (repo (lit "1.2.0") (lit "1.2.0") None)
               init_path IsADirectoryError)) = Raise IsADirectoryError.
Proof.
  apply (proj2 (proj2 (proj2 (run_ends_by_exit_or_exception
                                (argv_of (lit "v1.2.0"))
                                (with_unreadable
                                   (repo (lit "1.2.0") (lit "1.2.0") None)
                                   init_path IsADirectoryError)))
                  IsADirectoryError)).
  split; [reflexivity|]. right. left. exists (lit "1.2.0").
  split; vm_compute; reflexivity.
Defined.

(** ** The three comparisons *)

(** X3: the three comparisons are always all made: each one either prints
    its confirmation or adds its message to the list, so the confirmations
    and the messages are three together.  The list never holds exactly one
    message; it is empty exactly when the three versions agree, and when
    they differ pairwise it holds the three messages in the order tag and
    manifest, tag and module, manifest and module. *)
Theorem comparisons_all_made (tv pv iv : str) :
  exists errors : list str,
    snd (check_matches tv pv iv) = Return errors /\
    List.length (output (check_matches tv pv iv)) + List.length errors = 3 /\
    all_on_stdout (output (check_matches tv pv iv)) /\
    List.length errors <> 1 /\
    (errors = [] <-> tv = pv /\ tv = iv /\ pv = iv) /\
    (tv <> pv -> tv <> iv -> pv <> iv ->
     errors = [msg_tag_pyproject tv pv; msg_tag_init tv iv;
               msg_pyproject_init pv iv]).
Proof.
  exists (mismatches tv pv iv).
  split; [apply check_matches_errors|].
  split; [|split; [apply all_on_stdout_check_matches|]].
  - unfold check_matches, check_pair, mismatches.
    destruct (str_eqb tv pv), (str_eqb tv iv), (str_eqb pv iv);
      reflexivity.
  - split; [|split; [apply mismatches_nil|]].
    + unfold mismatches.
      destruct (str_eqb tv pv) eqn:E1, (str_eqb tv iv) eqn:E2,
               (str_eqb pv iv) eqn:E3; cbn; try discriminate;
        rewrite ?str_eqb_eq, ?str_eqb_neq in *; congruence.
    + intros H1 H2 H3. unfold mismatches.
      apply str_eqb_neq in H1, H2, H3. rewrite H1, H2, H3. reflexivity.
Qed.

Lemma comparisons_all_made_witness :
  exists errors : list str,
    snd (check_matches (lit "1.0.0") (lit "1.1.0") (lit "1.2.0")) =
      Return errors /\
    errors = [msg_tag_pyproject (lit "1.0.0") (lit "1.1.0");
              msg_tag_init (lit "1.0.0") (lit "1.2.0");
              msg_pyproject_init (lit "1.1.0") (lit "1.2.0")].
Proof.
  destruct (comparisons_all_made (lit "1.0.0") (lit "1.1.0") (lit "1.2.0"))
    as (errors & Hs & _ & _ & _ & _ & Hall).
  exists errors. split; [exact Hs|].
  apply Hall; intro H; vm_compute in H; discriminate H.
Defined.

(** ** The shape of an extracted version *)

Lemma first_occurrence_shape (key content v : str) :
  first_occurrence key content v ->
  v <> [] /\ forallb not_quote v = true.
Proof.
  intros (pre & (ws1 & ws2 & q1 & q2 & post & _ & _ & _ & _ & _ & Hv & Hq)
          & _).
  auto.
Qed.

Lemma pyproject_version_shape (fs : FS) (v : str) :
  snd (get_pyproject_version fs) = Return v ->
  v <> [] /\ forallb not_quote v = true.
Proof.
  intros H. apply get_pyproject_version_returns in H.
  destruct (fs pyproject_path) as [[c | e] |] eqn:Hc.
  - apply (@get_pyproject_version_first_occurrence fs c v Hc) in H.
    exact (first_occurrence_shape H).
  - rewrite (get_pyproject_version_unreadable _ Hc) in H. discriminate H.
  - rewrite (get_pyproject_version_missing _ Hc) in H. discriminate H.
Qed.

Lemma init_version_shape (fs : FS) (v : str) :
  snd (get_init_version fs) = Return v ->
  v <> [] /\ forallb not_quote v = true.
Proof.
  intros H. apply get_init_version_returns in H.
  destruct (fs init_path) as [[c | e] |] eqn:Hc.
  - apply (@get_init_version_first_occurrence fs c v Hc) in H.
    exact (first_occurrence_shape H).
  - rewrite (get_init_version_unreadable _ Hc) in H. discriminate H.
  - rewrite (get_init_version_missing _ Hc) in H. discriminate H.
Qed.

(** X4: a version returned by either extractor is never empty and holds
    no single or double quote character. *)
Theorem extracted_version_shape (fs : FS) (v : str) :
  snd (get_pyproject_version fs) = Return v \/
  snd (get_init_version fs) = Return v ->
  v <> [] /\ forallb not_quote v = true /\ existsb is_quote v = false.
Proof.
  intros H.
  assert (Hs : v <> [] /\ forallb not_quote v = true).
  { destruct H as [H | H];
      [exact (pyproject_version_shape _ H) | exact (init_version_shape _ H)]. }
  destruct Hs as [Hne Hq]. repeat split; auto.
  clear - Hq. induction v as [|c v IH]; [reflexivity|].
  cbn [forallb existsb] in *. apply andb_true_iff in Hq.
  destruct Hq as [Hc Hq]. unfold not_quote in Hc.
  destruct (is_quote c); [discriminate Hc|]. exact (IH Hq).
Qed.

Lemma extracted_version_shape_witness :
  lit "1.2.0" <> [] /\ forallb not_quote (lit "1.2.0") = true /\
  existsb is_quote (lit "1.2.0") = false.
Proof.
  apply (@extracted_version_shape (repo (lit "1.2.0") (lit "1.2.0") None)).
  left. vm_compute. reflexivity.
Defined.

(** X5: a tag whose version is empty (the tag v, or the empty tag) or
    holds a quote character is never verified: whatever the files contain,
    a run with such a tag ends with status 1. *)
Theorem unverifiable_tags (argv : list str) (fs : FS) :
  extract_version_from_tag (nth 1 argv []) = [] \/
  existsb is_quote (extract_version_from_tag (nth 1 argv [])) = true ->
  exit_status (main argv fs) = 1%Z.
Proof.
  intros Hbad.
  destruct (main_ends argv fs) as [H | [H | (e & H & _)]];
    [| unfold exit_status; rewrite H; reflexivity
     | unfold exit_status; rewrite H; reflexivity].
  exfalso.
  assert (H0 : exit_status (main argv fs) = 0%Z)
    by (unfold exit_status; rewrite H; reflexivity).
  apply exit_zero_extracted in H0. destruct H0 as (_ & Hp & _).
  apply pyproject_version_shape in Hp. destruct Hp as [Hne Hq].
  destruct Hbad as [Hb | Hb]; [contradiction|].
  revert Hq Hb. generalize (extract_version_from_tag (nth 1 argv [])).
  intros v. induction v as [|c v IH]; [discriminate|].
  cbn [forallb existsb]. intros Hq Hb.
  apply andb_true_iff in Hq. destruct Hq as [Hc Hq].
  unfold not_quote in Hc. destruct (is_quote c); [discriminate Hc|].
  exact (IH Hq Hb).
Qed.

Lemma unverifiable_tags_witness :
  exit_status (main (argv_of (lit "v")) (repo [] [] None)) = 1%Z.
Proof.
  apply unverifiable_tags. left. vm_compute. reflexivity.
Defined.

(** ** The README check again *)

Lemma mentions_substring (content version : str) :
  mentions content version <-> substring version content.
Proof.
  unfold mentions. split; [|auto].
  intros [H | (pre & post & ->)]; [exact H|].
  exists (pre ++ lit "v"), post. rewrite <- !app_assoc. reflexivity.
Qed.

(** X7: the second test of the README check, for the version after the
    letter v, never changes its outcome: with a README the success line is
    printed exactly when the bare version is a substring of the text, and
    the warning line exactly when it is not.  An empty version is found in
    every README. *)
Theorem readme_check_is_containment (fs : FS) (version content : str) :
  fs readme_path = Some (Text content) ->
  (check_readme_version fs version =
     ([(Stdout, msg_readme_ok)], Return tt) <->
   substring version content) /\
  (check_readme_version fs version =
     ([(Stdout, msg_readme_warning)], Return tt) <->
   ~ substring version content) /\
  (version = [] ->
   check_readme_version fs version = ([(Stdout, msg_readme_ok)], Return tt)).
Proof.
  intros Hc.
  assert (Hdiff : msg_readme_ok <> msg_readme_warning) by texts_differ.
  assert (Hok : check_readme_version fs version =
                  ([(Stdout, msg_readme_ok)], Return tt) <->
                substring version content).
  { rewrite <- mentions_substring, <- contains_mentions.
    rewrite (check_readme_version_text _ _ Hc).
    destruct (contains content version ||
              contains content (lit "v" ++ version)); split;
      try reflexivity; try discriminate;
      try (intros H; inversion H; congruence). }
  split; [exact Hok|]. split.
  - rewrite <- mentions_substring, <- contains_mentions.
    rewrite (check_readme_version_text _ _ Hc).
    destruct (contains content version ||
              contains content (lit "v" ++ version)); split;
      try reflexivity; try congruence; try discriminate;
      try (intros H; inversion H; congruence).
  - intros ->. apply Hok. exists [], content. reflexivity.
Qed.

Lemma readme_check_is_containment_witness :
  check_readme_version
    (repo (lit "1.2.0") (lit "1.2.0") (Some (lit "Release notes")))
    [] = ([(Stdout, msg_readme_ok)], Return tt).
Proof.
  exact (proj2 (proj2 (@readme_check_is_containment
                         (repo (lit "1.2.0") (lit "1.2.0")
                               (Some (lit "Release notes")))
                         [] (lit "Release notes") eq_refl))
           eq_refl).
Defined.

(** ** Tags and versions *)

(** X8: the tags from which a version X is extracted are the tag v
    followed by X, and X itself when X does not begin with v. *)
Theorem tags_of_version (tag X : str) :
  extract_version_from_tag tag = X <->
  tag = lit "v" ++ X \/ (tag = X /\ startswith X (lit "v") = false).
Proof.
  unfold extract_version_from_tag. split.
  - destruct (startswith tag (lit "v")) eqn:E.
    + apply startswith_prefix in E. destruct E as [t ->].
      cbn [lit list_ascii_of_string map app skipn]. intros ->. left.
      reflexivity.
    + intros ->. right. auto.
  - intros [-> | [-> H]].
    + reflexivity.
    + rewrite H. reflexivity.
Qed.

Lemma tags_of_version_witness :
  extract_version_from_tag (lit "v1.2.0") = lit "1.2.0".
Proof.
  apply (proj2 (tags_of_version (lit "v1.2.0") (lit "1.2.0"))).
  left. reflexivity.
Defined.

(** ** What a run depends on *)

Lemma check_readme_version_ext (fs fs' : FS) (version : str) :
  fs' readme_path = fs readme_path ->
  check_readme_version fs' version = check_readme_version fs version.
Proof. unfold check_readme_version. intros ->. reflexivity. Qed.

(** X9: a run depends on the number of arguments, on the tag argument and
    on the three files only: the name of the program and every other path
    of the file system are never looked at.  With a wrong number of
    arguments no file is looked at at all. *)
Theorem run_depends_on (argv argv' : list str) (fs fs' : FS) :
  (List.length argv = 2 -> List.length argv' = 2 ->
   nth 1 argv' [] = nth 1 argv [] ->
   fs' pyproject_path = fs pyproject_path ->
   fs' init_path = fs init_path ->
   fs' readme_path = fs readme_path ->
   main argv' fs' = main argv fs) /\
  (List.length argv <> 2 -> List.length argv' <> 2 ->
   main argv' fs' = main argv fs).
Proof.
  split.
  - intros Hlen Hlen' Htag H1 H2 H3. unfold main.
    rewrite Hlen, Hlen', Htag. cbv zeta.
    rewrite (@get_pyproject_version_ext fs fs' H1).
    rewrite (@get_init_version_ext fs fs' H2).
    rewrite (@check_readme_version_ext fs fs' _ H3). reflexivity.
  - intros Hlen Hlen'. unfold main.
    apply Nat.eqb_neq in Hlen, Hlen'. rewrite Hlen, Hlen'. reflexivity.
Qed.

Lemma run_depends_on_witness :
  main [lit "verify_version.py"; lit "v1.2.0"]
       (repo (lit "1.2.0") (lit "1.3.0") None) =
  main (argv_of (lit "v1.2.0"))
       (fun p => if String.eqb p "LICENSE"
                 then Some (Text (lit "MIT"))
                 else repo (lit "1.2.0") (lit "1.3.0") None p).
Proof.
  apply (proj1 (@run_depends_on _ _ _ _)); reflexivity.
Defined.

(** ** Writing an assignment and reading it back *)

Lemma occurrence_text (key content pre v : str) :
  occurrence key content pre v <->
  exists ws1 ws2 q1 q2 post,
    content = pre ++ assignment_text key ws1 ws2 q1 v q2 ++ post /\
    well_formed_assignment ws1 ws2 q1 v q2.
Proof.
  unfold occurrence, assignment_text, assignment_open,
    well_formed_assignment.
  split; intros (ws1 & ws2 & q1 & q2 & post & E & H);
    exists ws1, ws2, q1, q2, post; (split; [|exact H]);
    rewrite E; rewrite <- ?app_assoc; reflexivity.
Qed.

Lemma shorter_prefix_in (pre' : str) :
  forall (pre a : str) (k : char) (b : str),
    pre ++ a = pre' ++ k :: b ->
    List.length pre' < List.length pre ->
    In k pre.
Proof.
  induction pre' as [|x pre' IH]; intros pre a k b H Hlt;
    destruct pre as [|y pre]; cbn [List.length] in Hlt; try lia.
  - cbn [app] in H. inversion H. left. reflexivity.
  - cbn [app] in H. inversion H; subst. right.
    apply (IH pre a k b H2). lia.
Qed.

(** An assignment written after a text that does not hold the first
    character of the key is the first occurrence. *)
Lemma written_assignment_first (k : char) (key' pre ws1 ws2 : str)
    (q1 : char) (v : str) (q2 : char) (post : str) :
  ~ In k pre ->
  well_formed_assignment ws1 ws2 q1 v q2 ->
  first_occurrence (k :: key')
    (pre ++ assignment_text (k :: key') ws1 ws2 q1 v q2 ++ post) v.
Proof.
  intros Hfresh Hwf. exists pre. split.
  - apply occurrence_text. exists ws1, ws2, q1, q2, post. auto.
  - intros pre' v' Ho.
    destruct (Nat.le_gt_cases (List.length pre) (List.length pre'))
      as [Hle | Hlt]; [exact Hle|].
    exfalso. apply Hfresh.
    destruct Ho as (ws1' & ws2' & q1' & q2' & post' & E & _).
    cbn [app] in E. exact (@shorter_prefix_in _ _ _ _ _ E Hlt).
Qed.

(** X10: writing and reading back.  A manifest made of a text without the
    letter v, then the key version, optional whitespace (line breaks
    included), the equals sign, optional whitespace, a value between two
    quote characters (which need not be the same), then any text, gives
    that value; a module file gives it likewise for the key __version__
    after a text without an underscore.  The value must not be empty nor
    hold a quote character. *)
Theorem written_version_is_read (fs : FS) (pre ws1 ws2 : str) (q1 : char)
    (v : str) (q2 : char) (post : str) :
  well_formed_assignment ws1 ws2 q1 v q2 ->
  (~ In 118%N pre ->
   fs pyproject_path =
     Some (Text (pre ++ assignment_text (lit "version") ws1 ws2 q1 v q2
                     ++ post)) ->
   get_pyproject_version fs = ([], Return v)) /\
  (~ In 95%N pre ->
   fs init_path =
     Some (Text (pre ++ assignment_text (lit "__version__") ws1 ws2 q1 v q2
                     ++ post)) ->
   get_init_version fs = ([], Return v)).
Proof.
  intros Hwf. split; intros Hfresh Hc.
  - apply (@get_pyproject_version_first_occurrence fs _ v Hc).
    apply written_assignment_first; assumption.
  - apply (@get_init_version_first_occurrence fs _ v Hc).
    apply written_assignment_first; assumption.
Qed.

Lemma written_version_is_read_witness :
  get_pyproject_version
    (files (Some (lit "name = 'a2ui-pydantic'" ++ newline ++
                  assignment_text (lit "version") (lit " ") newline
                    34%N (lit "0.1.0") 39%N ++
                  lit " # release"))
           None None) = ([], Return (lit "0.1.0")).
Proof.
  refine (proj1 (@written_version_is_read _
                   (lit "name = 'a2ui-pydantic'" ++ newline)
                   (lit " ") newline 34%N (lit "0.1.0") 39%N
                   (lit " # release") _) _ _).
  - unfold well_formed_assignment. repeat split; try reflexivity.
    discriminate.
  - vm_compute. intuition discriminate.
  - vm_compute. reflexivity.
Defined.

(** ** The text after the first assignment *)

Lemma count_quotes_app (a b : str) :
  count_quotes (a ++ b) = count_quotes a + count_quotes b.
Proof.
  unfold count_quotes. rewrite filter_app, length_app. reflexivity.
Qed.

Lemma count_quotes_spaces (ws : str) :
  forallb is_space ws = true -> count_quotes ws = 0.
Proof.
  unfold count_quotes. induction ws as [|c ws IH]; [reflexivity|].
  cbn [forallb filter]. intros H. apply andb_true_iff in H.
  destruct H as [Hc Hws]. destruct (is_quote c) eqn:E.
  - apply quote_not_space in E. congruence.
  - exact (IH Hws).
Qed.

Lemma count_quotes_value (v : str) :
  forallb not_quote v = true -> count_quotes v = 0.
Proof.
  unfold count_quotes. induction v as [|c v IH]; [reflexivity|].
  cbn [forallb filter]. intros H. apply andb_true_iff in H.
  destruct H as [Hc Hv]. unfold not_quote in Hc.
  destruct (is_quote c); [discriminate Hc | exact (IH Hv)].
Qed.

Lemma count_quotes_quote (q : char) :
  is_quote q = true -> count_quotes [q] = 1.
Proof. unfold count_quotes. cbn [filter]. intros ->. reflexivity. Qed.

(** Before its closing quote an assignment holds one quote character more
    than its key, and two more with it. *)
Lemma count_quotes_assignment (key ws1 ws2 : str) (q1 : char) (v : str)
    (q2 : char) :
  well_formed_assignment ws1 ws2 q1 v q2 ->
  count_quotes (assignment_open key ws1 ws2 q1 v) = count_quotes key + 1 /\
  count_quotes (assignment_text key ws1 ws2 q1 v q2) = count_quotes key + 2.
Proof.
  intros (H1 & H2 & Hq1 & Hq2 & _ & Hv).
  unfold assignment_text, assignment_open.
  rewrite !count_quotes_app.
  rewrite (count_quotes_spaces _ H1), (count_quotes_spaces _ H2),
    (count_quotes_value _ Hv), (count_quotes_quote _ Hq1),
    (count_quotes_quote _ Hq2).
  change (count_quotes [61%N]) with 0. lia.
Qed.

Lemma longer_prefix_split (p : str) :
  forall pre x y : str,
    pre ++ x = p ++ y -> List.length p < List.length pre ->
    exists w, pre = p ++ w /\ y = w ++ x.
Proof.
  induction p as [|c p IH]; intros pre x y H Hlt.
  - exists pre. auto.
  - destruct pre as [|d pre]; cbn [List.length] in Hlt; [lia|].
    cbn [app] in H. inversion H; subst.
    destruct (IH pre x y H2) as (w & -> & ->); [lia|].
    exists w. auto.
Qed.

(** The occurrences that start before the first one do not depend on the
    text that follows the closing quote of the first one. *)
Lemma first_occurrence_tail (key pre ws1 ws2 : str) (q1 : char) (v : str)
    (q2 : char) (post post' : str) :
  count_quotes key = 0 ->
  well_formed_assignment ws1 ws2 q1 v q2 ->
  (forall p u,
      occurrence key
        (pre ++ assignment_text key ws1 ws2 q1 v q2 ++ post) p u ->
      List.length pre <= List.length p) ->
  first_occurrence key
    (pre ++ assignment_text key ws1 ws2 q1 v q2 ++ post') v.
Proof.
  intros Hkey Hwf Hmin. exists pre. split.
  - apply occurrence_text. exists ws1, ws2, q1, q2, post'. auto.
  - intros p u Ho.
    destruct (Nat.le_gt_cases (List.length pre) (List.length p))
      as [Hle | Hlt]; [exact Hle|].
    exfalso. apply occurrence_text in Ho.
    destruct Ho as (ws1' & ws2' & q1' & q2' & post'' & E & Hwf').
    destruct (longer_prefix_split _ _ _ _ E Hlt) as (w & Hpre & Hy).
    destruct (count_quotes_assignment key Hwf) as [_ Hc2].
    destruct (count_quotes_assignment key Hwf') as [Hc1 _].
    unfold assignment_text in Hy at 1. rewrite <- app_assoc in Hy.
    rewrite (app_assoc w) in Hy.
    apply app_eq_app in Hy. destruct Hy as (l & [[Ha Hb] | [Ha Hb]]).
    + apply (f_equal count_quotes) in Ha.
      rewrite !count_quotes_app, Hc1, Hc2 in Ha. lia.
    + destruct l as [|x l].
      * rewrite app_nil_r in Ha. apply (f_equal count_quotes) in Ha.
        rewrite count_quotes_app, Hc1, Hc2 in Ha. lia.
      * cbn [app] in Hb. inversion Hb; subst x post''.
        assert (Ho : occurrence key
                       (pre ++ assignment_text key ws1 ws2 q1 v q2 ++ post)
                       p u).
        { apply occurrence_text. exists ws1', ws2', q1', q2', (l ++ post).
          split; [|exact Hwf']. rewrite Hpre.
          rewrite <- (app_assoc p w). f_equal.
          rewrite (app_assoc w). rewrite Ha.
          unfold assignment_text. rewrite <- !app_assoc. reflexivity. }
        apply Hmin in Ho. lia.
Qed.

Lemma first_occurrence_head (key content v : str) :
  count_quotes key = 0 ->
  first_occurrence key content v ->
  exists (head post : str) (q : char),
    content = head ++ post /\
    is_quote q = true /\
    (exists h, head = h ++ v ++ [q]) /\
    forall post' : str, first_occurrence key (head ++ post') v.
Proof.
  intros Hkey (pre & Ho & Hmin). apply occurrence_text in Ho.
  destruct Ho as (ws1 & ws2 & q1 & q2 & post & E & Hwf).
  exists (pre ++ assignment_text key ws1 ws2 q1 v q2), post, q2.
  split; [rewrite E, <- app_assoc; reflexivity|].
  split; [apply Hwf|]. split.
  - exists (pre ++ key ++ ws1 ++ [61%N] ++ ws2 ++ [q1]).
    unfold assignment_text, assignment_open.
    rewrite <- !app_assoc. reflexivity.
  - intros post'. rewrite <- app_assoc.
    apply (@first_occurrence_tail key pre ws1 ws2 q1 v q2 post post' Hkey
             Hwf).
    rewrite <- E. exact Hmin.
Qed.

(** X11: what follows the first assignment is never looked at.  When an
    extractor returns a value, the text read splits into a head, which
    ends with that value and its closing quote, and a rest; every text
    that begins with the same head gives the same value, whatever follows
    (later assignments of another version included). *)
Theorem later_text_is_ignored (fs : FS) (content v : str) :
  (fs pyproject_path = Some (Text content) ->
   get_pyproject_version fs = ([], Return v) ->
   exists (head post : str) (q : char),
     content = head ++ post /\
     is_quote q = true /\
     (exists h, head = h ++ v ++ [q]) /\
     forall (fs' : FS) (post' : str),
       fs' pyproject_path = Some (Text (head ++ post')) ->
       get_pyproject_version fs' = ([], Return v)) /\
  (fs init_path = Some (Text content) ->
   get_init_version fs = ([], Return v) ->
   exists (head post : str) (q : char),
     content = head ++ post /\
     is_quote q = true /\
     (exists h, head = h ++ v ++ [q]) /\
     forall (fs' : FS) (post' : str),
       fs' init_path = Some (Text (head ++ post')) ->
       get_init_version fs' = ([], Return v)).
Proof.
  split; intros Hc H.
  - apply (@get_pyproject_version_first_occurrence fs content v Hc) in H.
    destruct (@first_occurrence_head (lit "version") content v eq_refl H)
      as (head & post & q & E & Hq & Hh & Hall).
    exists head, post, q. repeat split; auto.
    intros fs' post' Hc'.
    apply (@get_pyproject_version_first_occurrence fs' _ v Hc').
    apply Hall.
  - apply (@get_init_version_first_occurrence fs content v Hc) in H.
    destruct (@first_occurrence_head (lit "__version__") content v eq_refl H)
      as (head & post & q & E & Hq & Hh & Hall).
    exists head, post, q. repeat split; auto.
    intros fs' post' Hc'.
    apply (@get_init_version_first_occurrence fs' _ v Hc').
    apply Hall.
Qed.

Lemma later_text_is_ignored_witness :
  exists (head post : str) (q : char),
    manifest_text (lit "1.2.0") = head ++ post /\
    is_quote q = true /\
    (exists h, head = h ++ lit "1.2.0" ++ [q]) /\
    forall (fs' : FS) (post' : str),
      fs' pyproject_path = Some (Text (head ++ post')) ->
      get_pyproject_version fs' = ([], Return (lit "1.2.0")).
Proof.
  apply (proj1 (@later_text_is_ignored
                  (repo (lit "1.2.0") (lit "1.2.0") None)
                  (manifest_text (lit "1.2.0")) (lit "1.2.0"))).
  - reflexivity.
  - vm_compute. reflexivity.
Defined.

(** ** Failing fast, again *)

(** X12: a failure stops the reading of files.  When the manifest
    extractor exits, the run is the same whatever the module file and the
    README hold and whether they exist or not; when the module extractor
    exits, the run is the same whatever the README holds. *)
Theorem failure_stops_reading (argv : list str) (fs fs' : FS) (code : Z) :
  (snd (get_pyproject_version fs) = Exit code ->
   fs' pyproject_path = fs pyproject_path ->
   main argv fs' = main argv fs) /\
  (snd (get_init_version fs) = Exit code ->
   fs' pyproject_path = fs pyproject_path ->
   fs' init_path = fs init_path ->
   main argv fs' = main argv fs).
Proof.
  destruct (Nat.eqb (List.length argv) 2) eqn:Hlen.
  2:{ unfold main. rewrite Hlen. split; reflexivity. }
  apply Nat.eqb_eq in Hlen. split.
  - intros H H1.
    destruct (get_pyproject_version fs) as [o r] eqn:Ep.
    cbn [snd] in H. subst r.
    assert (Ep' : get_pyproject_version fs' = (o, Exit code))
      by (rewrite (@get_pyproject_version_ext fs fs' H1); exact Ep).
    rewrite (main_pyproject_exit _ _ Hlen Ep).
    rewrite (main_pyproject_exit _ _ Hlen Ep'). reflexivity.
  - intros H H1 H2.
    destruct (get_init_version fs) as [o r] eqn:Ei.
    cbn [snd] in H. subst r.
    assert (Ei' : get_init_version fs' = (o, Exit code))
      by (rewrite (@get_init_version_ext fs fs' H2); exact Ei).
    destruct (get_pyproject_version fs) as [o1 [pv | c1 | e]] eqn:Ep.
    + assert (Hp : snd (get_pyproject_version fs) = Return pv)
        by (rewrite Ep; reflexivity).
      assert (Hp' : snd (get_pyproject_version fs') = Return pv)
        by (rewrite (@get_pyproject_version_ext fs fs' H1); exact Hp).
      rewrite (main_init_exit _ _ Hlen Hp Ei).
      rewrite (main_init_exit _ _ Hlen Hp' Ei'). reflexivity.
    + assert (Ep' : get_pyproject_version fs' = (o1, Exit c1))
        by (rewrite (@get_pyproject_version_ext fs fs' H1); exact Ep).
      rewrite (main_pyproject_exit _ _ Hlen Ep).
      rewrite (main_pyproject_exit _ _ Hlen Ep'). reflexivity.
    + unfold main. rewrite Hlen.
      rewrite (@get_pyproject_version_ext fs fs' H1), Ep. reflexivity.
Qed.

Lemma failure_stops_reading_witness :
  main (argv_of (lit "v1.2.0"))
       (files None (Some (module_text (lit "1.2.0")))
              (Some (lit "Release 1.2.0"))) =
  main (argv_of (lit "v1.2.0")) (files None None None).
Proof.
  apply (proj1 (@failure_stops_reading (argv_of (lit "v1.2.0"))
                  (files None None None)
                  (files None (Some (module_text (lit "1.2.0")))
                         (Some (lit "Release 1.2.0"))) 1%Z));
    reflexivity.
Defined.

(** ** The looseness of the README check *)

Lemma substring_trans (a b c : str) :
  substring a b -> substring b c -> substring a c.
Proof.
  intros (p1 & s1 & ->) (p2 & s2 & ->).
  exists (p2 ++ p1), (s1 ++ s2). rewrite <- !app_assoc. reflexivity.
Qed.

(** X13: the README check accepts every README that holds a text of
    which the version is a part: a longer version number, a version with
    a suffix, or any word that contains it. *)
Theorem readme_check_is_loose (fs : FS) (version word content : str) :
  fs readme_path = Some (Text content) ->
  substring version word ->
  substring word content ->
  check_readme_version fs version = ([(Stdout, msg_readme_ok)], Return tt).
Proof.
  intros Hc H1 H2. rewrite (check_readme_version_text _ _ Hc).
  assert (Hm : mentions content version).
  { left. exact (substring_trans H1 H2). }
  apply contains_mentions in Hm. rewrite Hm. reflexivity.
Qed.

Lemma readme_check_is_loose_witness :
  check_readme_version
    (repo (lit "1.2.0") (lit "1.2.0") (Some (lit "pip install pkg==11.2.0rc1")))
    (lit "1.2.0") = ([(Stdout, msg_readme_ok)], Return tt).
Proof.
  apply (@readme_check_is_loose _ (lit "1.2.0") (lit "11.2.0rc1")
           (lit "pip install pkg==11.2.0rc1") eq_refl).
  - exists (lit "1"), (lit "rc1"). reflexivity.
  - exists (lit "pip install pkg=="), []. reflexivity.
Defined.
